(** * Decoded picture buffer of the JM H.264 decoder: capacity policy,
      allocation and teardown

    A shallow embedding of [getDpbSize], [init_dpb], [free_dpb],
    [alloc_frame_store], [alloc_storable_picture], [free_frame_store] and
    [free_storable_picture] of [ldecod/src/mbuffer.c], and of [error] of
    [ldecod.c], followed by the properties of the capacity policy and of
    the buffer life cycle.

    C [int] is 32 bits wide and [unsigned] arithmetic wraps modulo 2^32.
    Heap objects live in finite maps from addresses; the null pointer is
    [None].  An access to or a [free] of an address that is not live, a
    null dereference, an index out of bounds and a division by zero are
    undefined behaviour and end the run in [Fault]. *)

From stdpp Require Import gmap strings list fin_maps.
From Stdlib Require Import ZArith Lia.

Local Open Scope Z_scope.

(** ** Machine integers *)

Definition INT_MIN : Z := -2147483648.
Definition INT_MAX : Z := 2147483647.
Definition UINT_MOD : Z := 4294967296.

(** Conversion to [unsigned int]. *)
Definition to_uint (z : Z) : Z := z mod UINT_MOD.

(** Conversion to [int] (two's complement). *)
Definition to_int (z : Z) : Z :=
  let u := to_uint z in if u <? 2147483648 then u else u - UINT_MOD.

(** C truth value of a scalar. *)
Definition truthy (z : Z) : bool := negb (z =? 0).

(** Modelled from the spec: [imin] and [imax] are declared in a header that
    is not part of the sources at hand; the capacity policy uses them to
    "clip to an absolute hard ceiling" and to keep the size "at least 1",
    that is, as the minimum and the maximum of two [int]s. *)
Definition imin (a b : Z) : Z := Z.min a b.
Definition imax (a b : Z) : Z := Z.max a b.

(** ** Build configuration

    Macros, enumerators and inline helpers that [mbuffer.c] takes from
    headers outside the sources at hand.  Every result below holds for
    each choice of them, except where a hypothesis fixes one. *)

Class Defines := {
  MVC_EXTENSION_ENABLE : bool;
  MVC_HIGH : Z;
  STEREO_HIGH : Z;
  is_FREXT_profile : Z -> bool;
  RoundLog2 : Z -> Z;
  YUV400 : Z;
  BLOCK_SHIFT : Z;
  MAX_PLANE : nat;
  MAX_NUM_SLICES : nat;
  MVC_INIT_VIEW_ID : Z
}.

Definition MAX_LIST_SIZE : Z := 33.

(** ** Data model *)

(** Addresses, and pointers with [None] for the null pointer. *)
Abbreviation loc := positive (only parsing).
Abbreviation ptr := (option positive) (only parsing).

Inductive PictureStructure := FRAME | TOP_FIELD | BOTTOM_FIELD.

Global Instance PictureStructure_eq_dec : EqDecision PictureStructure.
Proof. solve_decision. Defined.

Record vui_seq_parameters_t := {
  bitstream_restriction_flag : Z;
  max_dec_frame_buffering : Z          (* unsigned int *)
}.

Record seq_parameter_set_rbsp_t := {
  profile_idc : Z;
  constrained_set3_flag : Z;
  level_idc : Z;
  chroma_format_idc : Z;
  num_ref_frames : Z;                  (* unsigned int *)
  pic_width_in_mbs_minus1 : Z;         (* unsigned int *)
  pic_height_in_map_units_minus1 : Z;  (* unsigned int *)
  frame_mbs_only_flag : Z;
  vui_parameters_present_flag : Z;
  vui_seq_parameters : vui_seq_parameters_t;
  (* the field [max_dec_frame_buffering] of the parameter set itself, which
     exists in builds with MVC_EXTENSION_ENABLE *)
  sps_max_dec_frame_buffering : Z
}.

Record subset_seq_parameter_set_rbsp_t := {
  num_views_minus1 : Z
}.

Record InputParameters := {
  dpb_plus : Z * Z                     (* int dpb_plus[2] *)
}.

(** Buffers reached only through the picture that owns them, with the
    dimensions they were requested with. *)
Inductive buffer :=
  | Mem2Dpel_pad (rows cols pad_y pad_x : Z)
  | Mem3Dpel_pad (planes rows cols pad_y pad_x : Z)
  | Mem2Dmp (rows cols : Z)
  | Bytes (n : Z)
  | Pointers (n : Z).

Global Instance buffer_eq_dec : EqDecision buffer.
Proof. solve_decision. Defined.

Record PicMotionParamsOld := {
  mb_field : option buffer
}.

Record StorablePicture := {
  structure : PictureStructure;
  poc : Z; top_poc : Z; bottom_poc : Z;
  frame_num : Z; pic_num : Z;
  long_term_pic_num : Z; long_term_frame_idx : Z;
  sp_is_long_term : Z; used_for_reference : Z;
  sp_is_output : Z; non_existing : Z;
  sp_separate_colour_plane_flag : Z;
  max_slice_id : Z;
  size_x : Z; size_y : Z; size_x_cr : Z; size_y_cr : Z;
  size_x_m1 : Z; size_y_m1 : Z; size_x_cr_m1 : Z; size_y_cr_m1 : Z;
  coded_frame : Z; mb_aff_frame_flag : Z;
  PicSizeInMbs : Z;
  sp_iLumaPadY : Z; sp_iLumaPadX : Z; sp_iChromaPadY : Z; sp_iChromaPadX : Z;
  imgY : option buffer;
  imgUV : option buffer;
  mv_info : option buffer;
  motion : PicMotionParamsOld;
  JVmv_info : list (option buffer);
  JVmotion : list PicMotionParamsOld;
  sp_top_field : ptr; sp_bottom_field : ptr; sp_frame : ptr;
  sp_view_id : Z;
  dec_ref_pic_marking_buffer : ptr;
  seiHasTone_mapping : Z;
  tone_mapping_lut : option buffer;
  iLumaStride : Z; iChromaStride : Z;
  iLumaExpandedHeight : Z; iChromaExpandedHeight : Z;
  listX : list (option buffer * option buffer)
}.

Record FrameStore := {
  is_used : Z;
  is_reference : Z;
  is_long_term : Z;
  is_orig_reference : Z;
  is_output : Z;
  frame : ptr;
  top_field : ptr;
  bottom_field : ptr;
  layer_id : Z;
  view_id : Z;
  inter_view_flag : Z * Z;
  anchor_pic_flag : Z * Z
}.

Record VideoParameters := {
  p_Inp : InputParameters;
  active_sps : option seq_parameter_set_rbsp_t;
  active_subset_sps : option subset_seq_parameter_set_rbsp_t;
  vid_profile_idc : Z;
  width : Z; height : Z; width_cr : Z; height_cr : Z;
  iLumaPadY : Z; iLumaPadX : Z; iChromaPadY : Z; iChromaPadX : Z;
  separate_colour_plane_flag : Z;
  conceal_mode : Z;
  last_has_mmco_5 : Z;
  last_out_fs : ptr;
  no_reference_picture : ptr
}.

(** The one decoder instance a buffer can point back to. *)
Inductive vid_handle := TheVid.

Record DecodedPictureBuffer := {
  p_Vid : option vid_handle;
  fs : ptr;
  fs_ref : ptr;
  fs_ltref : ptr;
  fs_ilref : ptr;
  size : Z;                            (* unsigned *)
  used_size : Z;
  ref_frames_in_buffer : Z;
  ltref_frames_in_buffer : Z;
  last_output_poc : Z;
  last_output_view_id : Z;
  init_done : Z;
  dpb_num_ref_frames : Z;
  last_picture : ptr
}.

(** ** Program state *)

Record State := {
  vid : VideoParameters;
  dpb : DecodedPictureBuffer;
  pictures : gmap loc StorablePicture;
  stores : gmap loc FrameStore;
  arrays : gmap loc (list ptr);
  stderr : list string
}.

(** Field updates. *)

Definition set_vid x (r : State) : State :=
  {| vid := x; dpb := dpb r; pictures := pictures r; stores := stores r;
     arrays := arrays r; stderr := stderr r |}.
Definition set_dpb x (r : State) : State :=
  {| vid := vid r; dpb := x; pictures := pictures r; stores := stores r;
     arrays := arrays r; stderr := stderr r |}.
Definition set_pictures x (r : State) : State :=
  {| vid := vid r; dpb := dpb r; pictures := x; stores := stores r; arrays
     := arrays r; stderr := stderr r |}.
Definition set_stores x (r : State) : State :=
  {| vid := vid r; dpb := dpb r; pictures := pictures r; stores := x; arrays
     := arrays r; stderr := stderr r |}.
Definition set_arrays x (r : State) : State :=
  {| vid := vid r; dpb := dpb r; pictures := pictures r; stores := stores r;
     arrays := x; stderr := stderr r |}.
Definition set_stderr x (r : State) : State :=
  {| vid := vid r; dpb := dpb r; pictures := pictures r; stores := stores r;
     arrays := arrays r; stderr := x |}.
Definition set_p_Vid x (r : DecodedPictureBuffer) : DecodedPictureBuffer :=
  {| p_Vid := x; fs := fs r; fs_ref := fs_ref r; fs_ltref := fs_ltref r;
     fs_ilref := fs_ilref r; size := size r; used_size := used_size r;
     ref_frames_in_buffer := ref_frames_in_buffer r; ltref_frames_in_buffer :=
     ltref_frames_in_buffer r; last_output_poc := last_output_poc r;
     last_output_view_id := last_output_view_id r; init_done := init_done r;
     dpb_num_ref_frames := dpb_num_ref_frames r; last_picture := last_picture r
     |}.
Definition set_fs x (r : DecodedPictureBuffer) : DecodedPictureBuffer :=
  {| p_Vid := p_Vid r; fs := x; fs_ref := fs_ref r; fs_ltref := fs_ltref r;
     fs_ilref := fs_ilref r; size := size r; used_size := used_size r;
     ref_frames_in_buffer := ref_frames_in_buffer r; ltref_frames_in_buffer :=
     ltref_frames_in_buffer r; last_output_poc := last_output_poc r;
     last_output_view_id := last_output_view_id r; init_done := init_done r;
     dpb_num_ref_frames := dpb_num_ref_frames r; last_picture := last_picture r
     |}.
Definition set_fs_ref x (r : DecodedPictureBuffer) : DecodedPictureBuffer :=
  {| p_Vid := p_Vid r; fs := fs r; fs_ref := x; fs_ltref := fs_ltref r;
     fs_ilref := fs_ilref r; size := size r; used_size := used_size r;
     ref_frames_in_buffer := ref_frames_in_buffer r; ltref_frames_in_buffer :=
     ltref_frames_in_buffer r; last_output_poc := last_output_poc r;
     last_output_view_id := last_output_view_id r; init_done := init_done r;
     dpb_num_ref_frames := dpb_num_ref_frames r; last_picture := last_picture r
     |}.
Definition set_fs_ltref x (r : DecodedPictureBuffer) : DecodedPictureBuffer :=
  {| p_Vid := p_Vid r; fs := fs r; fs_ref := fs_ref r; fs_ltref := x;
     fs_ilref := fs_ilref r; size := size r; used_size := used_size r;
     ref_frames_in_buffer := ref_frames_in_buffer r; ltref_frames_in_buffer :=
     ltref_frames_in_buffer r; last_output_poc := last_output_poc r;
     last_output_view_id := last_output_view_id r; init_done := init_done r;
     dpb_num_ref_frames := dpb_num_ref_frames r; last_picture := last_picture r
     |}.
Definition set_fs_ilref x (r : DecodedPictureBuffer) : DecodedPictureBuffer :=
  {| p_Vid := p_Vid r; fs := fs r; fs_ref := fs_ref r; fs_ltref := fs_ltref
     r; fs_ilref := x; size := size r; used_size := used_size r;
     ref_frames_in_buffer := ref_frames_in_buffer r; ltref_frames_in_buffer :=
     ltref_frames_in_buffer r; last_output_poc := last_output_poc r;
     last_output_view_id := last_output_view_id r; init_done := init_done r;
     dpb_num_ref_frames := dpb_num_ref_frames r; last_picture := last_picture r
     |}.
Definition set_size x (r : DecodedPictureBuffer) : DecodedPictureBuffer :=
  {| p_Vid := p_Vid r; fs := fs r; fs_ref := fs_ref r; fs_ltref := fs_ltref
     r; fs_ilref := fs_ilref r; size := x; used_size := used_size r;
     ref_frames_in_buffer := ref_frames_in_buffer r; ltref_frames_in_buffer :=
     ltref_frames_in_buffer r; last_output_poc := last_output_poc r;
     last_output_view_id := last_output_view_id r; init_done := init_done r;
     dpb_num_ref_frames := dpb_num_ref_frames r; last_picture := last_picture r
     |}.
Definition set_used_size x (r : DecodedPictureBuffer) : DecodedPictureBuffer :=
  {| p_Vid := p_Vid r; fs := fs r; fs_ref := fs_ref r; fs_ltref := fs_ltref
     r; fs_ilref := fs_ilref r; size := size r; used_size := x;
     ref_frames_in_buffer := ref_frames_in_buffer r; ltref_frames_in_buffer :=
     ltref_frames_in_buffer r; last_output_poc := last_output_poc r;
     last_output_view_id := last_output_view_id r; init_done := init_done r;
     dpb_num_ref_frames := dpb_num_ref_frames r; last_picture := last_picture r
     |}.
Definition set_ref_frames_in_buffer x (r : DecodedPictureBuffer) : DecodedPictureBuffer :=
  {| p_Vid := p_Vid r; fs := fs r; fs_ref := fs_ref r; fs_ltref := fs_ltref
     r; fs_ilref := fs_ilref r; size := size r; used_size := used_size r;
     ref_frames_in_buffer := x; ltref_frames_in_buffer :=
     ltref_frames_in_buffer r; last_output_poc := last_output_poc r;
     last_output_view_id := last_output_view_id r; init_done := init_done r;
     dpb_num_ref_frames := dpb_num_ref_frames r; last_picture := last_picture r
     |}.
Definition set_ltref_frames_in_buffer x (r : DecodedPictureBuffer) : DecodedPictureBuffer :=
  {| p_Vid := p_Vid r; fs := fs r; fs_ref := fs_ref r; fs_ltref := fs_ltref
     r; fs_ilref := fs_ilref r; size := size r; used_size := used_size r;
     ref_frames_in_buffer := ref_frames_in_buffer r; ltref_frames_in_buffer :=
     x; last_output_poc := last_output_poc r; last_output_view_id :=
     last_output_view_id r; init_done := init_done r; dpb_num_ref_frames :=
     dpb_num_ref_frames r; last_picture := last_picture r |}.
Definition set_last_output_poc x (r : DecodedPictureBuffer) : DecodedPictureBuffer :=
  {| p_Vid := p_Vid r; fs := fs r; fs_ref := fs_ref r; fs_ltref := fs_ltref
     r; fs_ilref := fs_ilref r; size := size r; used_size := used_size r;
     ref_frames_in_buffer := ref_frames_in_buffer r; ltref_frames_in_buffer :=
     ltref_frames_in_buffer r; last_output_poc := x; last_output_view_id :=
     last_output_view_id r; init_done := init_done r; dpb_num_ref_frames :=
     dpb_num_ref_frames r; last_picture := last_picture r |}.
Definition set_last_output_view_id x (r : DecodedPictureBuffer) : DecodedPictureBuffer :=
  {| p_Vid := p_Vid r; fs := fs r; fs_ref := fs_ref r; fs_ltref := fs_ltref
     r; fs_ilref := fs_ilref r; size := size r; used_size := used_size r;
     ref_frames_in_buffer := ref_frames_in_buffer r; ltref_frames_in_buffer :=
     ltref_frames_in_buffer r; last_output_poc := last_output_poc r;
     last_output_view_id := x; init_done := init_done r; dpb_num_ref_frames :=
     dpb_num_ref_frames r; last_picture := last_picture r |}.
Definition set_init_done x (r : DecodedPictureBuffer) : DecodedPictureBuffer :=
  {| p_Vid := p_Vid r; fs := fs r; fs_ref := fs_ref r; fs_ltref := fs_ltref
     r; fs_ilref := fs_ilref r; size := size r; used_size := used_size r;
     ref_frames_in_buffer := ref_frames_in_buffer r; ltref_frames_in_buffer :=
     ltref_frames_in_buffer r; last_output_poc := last_output_poc r;
     last_output_view_id := last_output_view_id r; init_done := x;
     dpb_num_ref_frames := dpb_num_ref_frames r; last_picture := last_picture r
     |}.
Definition set_dpb_num_ref_frames x (r : DecodedPictureBuffer) : DecodedPictureBuffer :=
  {| p_Vid := p_Vid r; fs := fs r; fs_ref := fs_ref r; fs_ltref := fs_ltref
     r; fs_ilref := fs_ilref r; size := size r; used_size := used_size r;
     ref_frames_in_buffer := ref_frames_in_buffer r; ltref_frames_in_buffer :=
     ltref_frames_in_buffer r; last_output_poc := last_output_poc r;
     last_output_view_id := last_output_view_id r; init_done := init_done r;
     dpb_num_ref_frames := x; last_picture := last_picture r |}.
Definition set_last_picture x (r : DecodedPictureBuffer) : DecodedPictureBuffer :=
  {| p_Vid := p_Vid r; fs := fs r; fs_ref := fs_ref r; fs_ltref := fs_ltref
     r; fs_ilref := fs_ilref r; size := size r; used_size := used_size r;
     ref_frames_in_buffer := ref_frames_in_buffer r; ltref_frames_in_buffer :=
     ltref_frames_in_buffer r; last_output_poc := last_output_poc r;
     last_output_view_id := last_output_view_id r; init_done := init_done r;
     dpb_num_ref_frames := dpb_num_ref_frames r; last_picture := x |}.
Definition set_last_has_mmco_5 x (r : VideoParameters) : VideoParameters :=
  {| p_Inp := p_Inp r; active_sps := active_sps r; active_subset_sps :=
     active_subset_sps r; vid_profile_idc := vid_profile_idc r; width := width
     r; height := height r; width_cr := width_cr r; height_cr := height_cr r;
     iLumaPadY := iLumaPadY r; iLumaPadX := iLumaPadX r; iChromaPadY :=
     iChromaPadY r; iChromaPadX := iChromaPadX r; separate_colour_plane_flag :=
     separate_colour_plane_flag r; conceal_mode := conceal_mode r;
     last_has_mmco_5 := x; last_out_fs := last_out_fs r; no_reference_picture
     := no_reference_picture r |}.
Definition set_last_out_fs x (r : VideoParameters) : VideoParameters :=
  {| p_Inp := p_Inp r; active_sps := active_sps r; active_subset_sps :=
     active_subset_sps r; vid_profile_idc := vid_profile_idc r; width := width
     r; height := height r; width_cr := width_cr r; height_cr := height_cr r;
     iLumaPadY := iLumaPadY r; iLumaPadX := iLumaPadX r; iChromaPadY :=
     iChromaPadY r; iChromaPadX := iChromaPadX r; separate_colour_plane_flag :=
     separate_colour_plane_flag r; conceal_mode := conceal_mode r;
     last_has_mmco_5 := last_has_mmco_5 r; last_out_fs := x;
     no_reference_picture := no_reference_picture r |}.
Definition set_no_reference_picture x (r : VideoParameters) : VideoParameters :=
  {| p_Inp := p_Inp r; active_sps := active_sps r; active_subset_sps :=
     active_subset_sps r; vid_profile_idc := vid_profile_idc r; width := width
     r; height := height r; width_cr := width_cr r; height_cr := height_cr r;
     iLumaPadY := iLumaPadY r; iLumaPadX := iLumaPadX r; iChromaPadY :=
     iChromaPadY r; iChromaPadX := iChromaPadX r; separate_colour_plane_flag :=
     separate_colour_plane_flag r; conceal_mode := conceal_mode r;
     last_has_mmco_5 := last_has_mmco_5 r; last_out_fs := last_out_fs r;
     no_reference_picture := x |}.
Definition set_frame x (r : FrameStore) : FrameStore :=
  {| is_used := is_used r; is_reference := is_reference r; is_long_term :=
     is_long_term r; is_orig_reference := is_orig_reference r; is_output :=
     is_output r; frame := x; top_field := top_field r; bottom_field :=
     bottom_field r; layer_id := layer_id r; view_id := view_id r;
     inter_view_flag := inter_view_flag r; anchor_pic_flag := anchor_pic_flag r
     |}.
Definition set_top_field x (r : FrameStore) : FrameStore :=
  {| is_used := is_used r; is_reference := is_reference r; is_long_term :=
     is_long_term r; is_orig_reference := is_orig_reference r; is_output :=
     is_output r; frame := frame r; top_field := x; bottom_field :=
     bottom_field r; layer_id := layer_id r; view_id := view_id r;
     inter_view_flag := inter_view_flag r; anchor_pic_flag := anchor_pic_flag r
     |}.
Definition set_bottom_field x (r : FrameStore) : FrameStore :=
  {| is_used := is_used r; is_reference := is_reference r; is_long_term :=
     is_long_term r; is_orig_reference := is_orig_reference r; is_output :=
     is_output r; frame := frame r; top_field := top_field r; bottom_field :=
     x; layer_id := layer_id r; view_id := view_id r; inter_view_flag :=
     inter_view_flag r; anchor_pic_flag := anchor_pic_flag r |}.
Definition set_layer_id x (r : FrameStore) : FrameStore :=
  {| is_used := is_used r; is_reference := is_reference r; is_long_term :=
     is_long_term r; is_orig_reference := is_orig_reference r; is_output :=
     is_output r; frame := frame r; top_field := top_field r; bottom_field :=
     bottom_field r; layer_id := x; view_id := view_id r; inter_view_flag :=
     inter_view_flag r; anchor_pic_flag := anchor_pic_flag r |}.
Definition set_view_id x (r : FrameStore) : FrameStore :=
  {| is_used := is_used r; is_reference := is_reference r; is_long_term :=
     is_long_term r; is_orig_reference := is_orig_reference r; is_output :=
     is_output r; frame := frame r; top_field := top_field r; bottom_field :=
     bottom_field r; layer_id := layer_id r; view_id := x; inter_view_flag :=
     inter_view_flag r; anchor_pic_flag := anchor_pic_flag r |}.
Definition set_inter_view_flag x (r : FrameStore) : FrameStore :=
  {| is_used := is_used r; is_reference := is_reference r; is_long_term :=
     is_long_term r; is_orig_reference := is_orig_reference r; is_output :=
     is_output r; frame := frame r; top_field := top_field r; bottom_field :=
     bottom_field r; layer_id := layer_id r; view_id := view_id r;
     inter_view_flag := x; anchor_pic_flag := anchor_pic_flag r |}.
Definition set_anchor_pic_flag x (r : FrameStore) : FrameStore :=
  {| is_used := is_used r; is_reference := is_reference r; is_long_term :=
     is_long_term r; is_orig_reference := is_orig_reference r; is_output :=
     is_output r; frame := frame r; top_field := top_field r; bottom_field :=
     bottom_field r; layer_id := layer_id r; view_id := view_id r;
     inter_view_flag := inter_view_flag r; anchor_pic_flag := x |}.

Definition set_sp_top_field x (r : StorablePicture) : StorablePicture :=
  {| structure := structure r; poc := poc r; top_poc := top_poc r;
     bottom_poc := bottom_poc r; frame_num := frame_num r; pic_num := pic_num
     r; long_term_pic_num := long_term_pic_num r; long_term_frame_idx :=
     long_term_frame_idx r; sp_is_long_term := sp_is_long_term r;
     used_for_reference := used_for_reference r; sp_is_output := sp_is_output
     r; non_existing := non_existing r; sp_separate_colour_plane_flag :=
     sp_separate_colour_plane_flag r; max_slice_id := max_slice_id r; size_x :=
     size_x r; size_y := size_y r; size_x_cr := size_x_cr r; size_y_cr :=
     size_y_cr r; size_x_m1 := size_x_m1 r; size_y_m1 := size_y_m1 r;
     size_x_cr_m1 := size_x_cr_m1 r; size_y_cr_m1 := size_y_cr_m1 r;
     coded_frame := coded_frame r; mb_aff_frame_flag := mb_aff_frame_flag r;
     PicSizeInMbs := PicSizeInMbs r; sp_iLumaPadY := sp_iLumaPadY r;
     sp_iLumaPadX := sp_iLumaPadX r; sp_iChromaPadY := sp_iChromaPadY r;
     sp_iChromaPadX := sp_iChromaPadX r; imgY := imgY r; imgUV := imgUV r;
     mv_info := mv_info r; motion := motion r; JVmv_info := JVmv_info r;
     JVmotion := JVmotion r; sp_top_field := x; sp_bottom_field :=
     sp_bottom_field r; sp_frame := sp_frame r; sp_view_id := sp_view_id r;
     dec_ref_pic_marking_buffer := dec_ref_pic_marking_buffer r;
     seiHasTone_mapping := seiHasTone_mapping r; tone_mapping_lut :=
     tone_mapping_lut r; iLumaStride := iLumaStride r; iChromaStride :=
     iChromaStride r; iLumaExpandedHeight := iLumaExpandedHeight r;
     iChromaExpandedHeight := iChromaExpandedHeight r; listX := listX r |}.
Definition set_sp_bottom_field x (r : StorablePicture) : StorablePicture :=
  {| structure := structure r; poc := poc r; top_poc := top_poc r;
     bottom_poc := bottom_poc r; frame_num := frame_num r; pic_num := pic_num
     r; long_term_pic_num := long_term_pic_num r; long_term_frame_idx :=
     long_term_frame_idx r; sp_is_long_term := sp_is_long_term r;
     used_for_reference := used_for_reference r; sp_is_output := sp_is_output
     r; non_existing := non_existing r; sp_separate_colour_plane_flag :=
     sp_separate_colour_plane_flag r; max_slice_id := max_slice_id r; size_x :=
     size_x r; size_y := size_y r; size_x_cr := size_x_cr r; size_y_cr :=
     size_y_cr r; size_x_m1 := size_x_m1 r; size_y_m1 := size_y_m1 r;
     size_x_cr_m1 := size_x_cr_m1 r; size_y_cr_m1 := size_y_cr_m1 r;
     coded_frame := coded_frame r; mb_aff_frame_flag := mb_aff_frame_flag r;
     PicSizeInMbs := PicSizeInMbs r; sp_iLumaPadY := sp_iLumaPadY r;
     sp_iLumaPadX := sp_iLumaPadX r; sp_iChromaPadY := sp_iChromaPadY r;
     sp_iChromaPadX := sp_iChromaPadX r; imgY := imgY r; imgUV := imgUV r;
     mv_info := mv_info r; motion := motion r; JVmv_info := JVmv_info r;
     JVmotion := JVmotion r; sp_top_field := sp_top_field r; sp_bottom_field :=
     x; sp_frame := sp_frame r; sp_view_id := sp_view_id r;
     dec_ref_pic_marking_buffer := dec_ref_pic_marking_buffer r;
     seiHasTone_mapping := seiHasTone_mapping r; tone_mapping_lut :=
     tone_mapping_lut r; iLumaStride := iLumaStride r; iChromaStride :=
     iChromaStride r; iLumaExpandedHeight := iLumaExpandedHeight r;
     iChromaExpandedHeight := iChromaExpandedHeight r; listX := listX r |}.
Definition set_sp_frame x (r : StorablePicture) : StorablePicture :=
  {| structure := structure r; poc := poc r; top_poc := top_poc r;
     bottom_poc := bottom_poc r; frame_num := frame_num r; pic_num := pic_num
     r; long_term_pic_num := long_term_pic_num r; long_term_frame_idx :=
     long_term_frame_idx r; sp_is_long_term := sp_is_long_term r;
     used_for_reference := used_for_reference r; sp_is_output := sp_is_output
     r; non_existing := non_existing r; sp_separate_colour_plane_flag :=
     sp_separate_colour_plane_flag r; max_slice_id := max_slice_id r; size_x :=
     size_x r; size_y := size_y r; size_x_cr := size_x_cr r; size_y_cr :=
     size_y_cr r; size_x_m1 := size_x_m1 r; size_y_m1 := size_y_m1 r;
     size_x_cr_m1 := size_x_cr_m1 r; size_y_cr_m1 := size_y_cr_m1 r;
     coded_frame := coded_frame r; mb_aff_frame_flag := mb_aff_frame_flag r;
     PicSizeInMbs := PicSizeInMbs r; sp_iLumaPadY := sp_iLumaPadY r;
     sp_iLumaPadX := sp_iLumaPadX r; sp_iChromaPadY := sp_iChromaPadY r;
     sp_iChromaPadX := sp_iChromaPadX r; imgY := imgY r; imgUV := imgUV r;
     mv_info := mv_info r; motion := motion r; JVmv_info := JVmv_info r;
     JVmotion := JVmotion r; sp_top_field := sp_top_field r; sp_bottom_field :=
     sp_bottom_field r; sp_frame := x; sp_view_id := sp_view_id r;
     dec_ref_pic_marking_buffer := dec_ref_pic_marking_buffer r;
     seiHasTone_mapping := seiHasTone_mapping r; tone_mapping_lut :=
     tone_mapping_lut r; iLumaStride := iLumaStride r; iChromaStride :=
     iChromaStride r; iLumaExpandedHeight := iLumaExpandedHeight r;
     iChromaExpandedHeight := iChromaExpandedHeight r; listX := listX r |}.

Inductive fault := NullDeref | NotLive | DivByZero | OutOfBounds.

Inductive outcome (A : Type) :=
  | Ok (a : A) (s : State)
  | Exit (code : Z) (s : State)
  | Fault (f : fault).
Arguments Ok {A} a s.
Arguments Exit {A} code s.
Arguments Fault {A} f.

Definition M (A : Type) : Type := State -> outcome A.

Global Instance M_ret : MRet M := fun A a s => Ok a s.

Global Instance M_bind : MBind M := fun A B k m s =>
  match m s with
  | Ok a s' => k a s'
  | Exit c s' => Exit c s'
  | Fault f => Fault f
  end.

Definition get : M State := fun s => Ok s s.
Definition crash {A} (f : fault) : M A := fun _ => Fault f.
Definition exit {A} (code : Z) : M A := fun s => Exit code s.

Definition when (b : bool) (m : M unit) : M unit := if b then m else mret tt.

Definition modify (f : State -> State) : M unit := fun s => Ok tt (f s).
Definition modify_dpb (f : DecodedPictureBuffer -> DecodedPictureBuffer)
  : M unit := modify (fun s => set_dpb (f (dpb s)) s).
Definition modify_vid (f : VideoParameters -> VideoParameters)
  : M unit := modify (fun s => set_vid (f (vid s)) s).

Definition fprintf_stderr (text : string) : M unit :=
  modify (fun s => set_stderr (stderr s ++ [text]) s).

(** ** ldecod.c *)

(** [error]: the message goes to stderr; the call of [exit] is commented
    out in the source, so control returns to the caller. *)
Definition error (text : string) (code : Z) : M unit :=
  fprintf_stderr text.

Definition error_KeyGen (text : string) (code : Z) : M unit :=
  fprintf_stderr text ;; exit code.

(** ** mbuffer.c: the capacity policy *)

Section Policy.
Context `{D : Defines}.

Definition pic_size_mb_of (active_sps : seq_parameter_set_rbsp_t) : Z :=
  to_int
    (to_uint
       (to_uint (to_uint (pic_width_in_mbs_minus1 active_sps + 1)
                 * to_uint (pic_height_in_map_units_minus1 active_sps + 1))
        * to_uint (if truthy (frame_mbs_only_flag active_sps) then 1 else 2))).

(** The [switch] on [level_idc]: [inl] is the early [return 16] of level 0,
    [inr (Some n)] a recognised level with its budget, [inr None] the
    [default] label. *)
Definition level_switch (active_sps : seq_parameter_set_rbsp_t)
  : Z + option Z :=
  let l := level_idc active_sps in
  if l =? 0 then inl 16
  else if l =? 9 then inr (Some 396)
  else if l =? 10 then inr (Some 396)
  else if l =? 11 then
    if negb (is_FREXT_profile (profile_idc active_sps))
       && (constrained_set3_flag active_sps =? 1)
    then inr (Some 396) else inr (Some 900)
  else if l =? 12 then inr (Some 2376)
  else if l =? 13 then inr (Some 2376)
  else if l =? 20 then inr (Some 2376)
  else if l =? 21 then inr (Some 4752)
  else if l =? 22 then inr (Some 8100)
  else if l =? 30 then inr (Some 8100)
  else if l =? 31 then inr (Some 18000)
  else if l =? 32 then inr (Some 20480)
  else if l =? 40 then inr (Some 32768)
  else if l =? 41 then inr (Some 32768)
  else if l =? 42 then inr (Some 34816)
  else if l =? 50 then inr (Some 110400)
  else if l =? 51 then inr (Some 184320)
  else if l =? 52 then inr (Some 184320)
  else if (l =? 60) || (l =? 61) || (l =? 62) then inr (Some 696320)
  else inr None.

(** C division of [int]s: truncation, undefined for a zero divisor. *)
Definition c_div (a b : Z) : M Z :=
  if b =? 0 then crash DivByZero else mret (to_int (Z.quot a b)).

(** Lines 120-131: division by the picture size, then the multiview
    bound or the single-view clip. *)
Definition size_after_views (size pic_size_mb : Z) : M Z :=
  size ← c_div size pic_size_mb;
  s ← get;
  if MVC_EXTENSION_ENABLE
     && ((vid_profile_idc (vid s) =? MVC_HIGH)
         || (vid_profile_idc (vid s) =? STEREO_HIGH))
  then
    match active_subset_sps (vid s) with
    | None => crash NullDeref
    | Some sub =>
        let num_views := to_int (num_views_minus1 sub + 1) in
        c_div (imin (to_int (2 * size))
                    (to_int (imax 1 (RoundLog2 num_views) * 16)))
              num_views
    end
  else mret (imin size 16).

(** Lines 133-148: the VUI override. *)
Definition size_after_vui (active_sps : seq_parameter_set_rbsp_t) (size : Z)
  : M Z :=
  if truthy (vui_parameters_present_flag active_sps)
     && truthy (bitstream_restriction_flag (vui_seq_parameters active_sps))
  then
    let mdfb := max_dec_frame_buffering (vui_seq_parameters active_sps) in
    when (size <? to_int mdfb)
      (error "max_dec_frame_buffering larger than MaxDpbSize" 500) ;;
    let size_vui := imax 1 (to_int mdfb) in
    mret size_vui
  else mret size.

Definition getDpbSize (active_sps : seq_parameter_set_rbsp_t) : M Z :=
  let pic_size_mb := pic_size_mb_of active_sps in
  match level_switch active_sps with
  | inl r => mret r
  | inr budget =>
      size ← match budget with
             | Some n => mret n
             | None => error "undefined level" 500 ;; mret 0
             end;
      size ← size_after_views size pic_size_mb;
      size_after_vui active_sps size
  end.

(** *** Vocabulary of the capacity claims *)

(** The level codes with a [case] label in [getDpbSize]. *)
Definition recognised_levels : list Z :=
  [0; 9; 10; 11; 12; 13; 20; 21; 22; 30; 31; 32; 40; 41; 42; 50; 51; 52;
   60; 61; 62].

(** The picture size in macroblocks, as an integer without wrap-around. *)
Definition picture_size (sps : seq_parameter_set_rbsp_t) : Z :=
  (pic_width_in_mbs_minus1 sps + 1)
  * (pic_height_in_map_units_minus1 sps + 1)
  * (if truthy (frame_mbs_only_flag sps) then 1 else 2).

(** The stream is not decoded as multiview: the [else] branch of line 127
    is taken. *)
Definition single_view (v : VideoParameters) : bool :=
  negb (MVC_EXTENSION_ENABLE
        && ((vid_profile_idc v =? MVC_HIGH)
            || (vid_profile_idc v =? STEREO_HIGH))).

(** The condition of line 133. *)
Definition vui_override (sps : seq_parameter_set_rbsp_t) : bool :=
  truthy (vui_parameters_present_flag sps)
  && truthy (bitstream_restriction_flag (vui_seq_parameters sps)).

(** A valid (level, picture size) pair: the level is recognised and, for a
    level other than 0, the picture has at least one macroblock and fits
    the macroblock budget of the level.  The level limits of the standard
    imply this: they bound the frame size of each level by a fraction of
    its budget. *)
Definition valid_level_size (sps : seq_parameter_set_rbsp_t) : bool :=
  match level_switch sps with
  | inl _ => true
  | inr (Some budget) =>
      (1 <=? picture_size sps) && (picture_size sps <=? budget)
  | inr None => false
  end.

(** [getDpbSize] runs into no undefined behaviour: no division by zero and
    no null subset parameter set. *)
Definition capacity_defined (v : VideoParameters)
    (sps : seq_parameter_set_rbsp_t) : bool :=
  match level_switch sps with
  | inl _ => true
  | inr _ =>
      negb (pic_size_mb_of sps =? 0)
      && (single_view v
          || match active_subset_sps v with
             | Some sub => negb (to_int (num_views_minus1 sub + 1) =? 0)
             | None => false
             end)
  end.

End Policy.

(** ** mbuffer.c: storage *)

(** Heap access.  Allocation always succeeds, so the calls of
    [no_mem_exit] that follow each [calloc] in the source are never
    reached. *)

Definition load_store (p : ptr) : M FrameStore := fun s =>
  match p with
  | None => Fault NullDeref
  | Some l => match stores s !! l with
              | Some f => Ok f s
              | None => Fault NotLive
              end
  end.

Definition load_picture (p : ptr) : M StorablePicture := fun s =>
  match p with
  | None => Fault NullDeref
  | Some l => match pictures s !! l with
              | Some x => Ok x s
              | None => Fault NotLive
              end
  end.

Definition load_array (p : ptr) : M (list ptr) := fun s =>
  match p with
  | None => Fault NullDeref
  | Some l => match arrays s !! l with
              | Some x => Ok x s
              | None => Fault NotLive
              end
  end.

Definition write_store (l : loc) (f : FrameStore) : M unit :=
  modify (fun s => set_stores (<[l := f]> (stores s)) s).

Definition write_picture (l : loc) (x : StorablePicture) : M unit :=
  modify (fun s => set_pictures (<[l := x]> (pictures s)) s).

Definition update_store (p : ptr) (g : FrameStore -> FrameStore) : M unit :=
  f ← load_store p;
  match p with Some l => write_store l (g f) | None => crash NullDeref end.

Definition update_picture (p : ptr) (g : StorablePicture -> StorablePicture)
  : M unit :=
  x ← load_picture p;
  match p with Some l => write_picture l (g x) | None => crash NullDeref end.

(** [a[i]] read and [a[i] = v] for an array of pointers. *)
Definition array_get (a : ptr) (i : nat) : M ptr :=
  xs ← load_array a;
  match xs !! i with
  | Some v => mret v
  | None => crash OutOfBounds
  end.

Definition array_set (a : ptr) (i : nat) (v : ptr) : M unit :=
  xs ← load_array a;
  match a with
  | Some l =>
      if decide (i < length xs)%nat
      then modify (fun s => set_arrays (<[l := <[i := v]> xs]> (arrays s)) s)
      else crash OutOfBounds
  | None => crash NullDeref
  end.

(** [calloc (n, sizeof (FrameStore* ))]; a request for no entries returns
    a block as well. *)
Definition calloc_array (n : Z) : M ptr := fun s =>
  let l := fresh (dom (arrays s)) in
  Ok (Some l) (set_arrays (<[l := replicate (Z.to_nat n) None]> (arrays s)) s).

Definition free_array (l : loc) : M unit := fun s =>
  match arrays s !! l with
  | Some _ => Ok tt (set_arrays (delete l (arrays s)) s)
  | None => Fault NotLive
  end.

Definition free_store_block (l : loc) : M unit := fun s =>
  match stores s !! l with
  | Some _ => Ok tt (set_stores (delete l (stores s)) s)
  | None => Fault NotLive
  end.

Definition free_picture_block (l : loc) : M unit := fun s =>
  match pictures s !! l with
  | Some _ => Ok tt (set_pictures (delete l (pictures s)) s)
  | None => Fault NotLive
  end.

(** [for (i = from; i < from + n; i++) body] *)
Fixpoint for_range (from n : nat) (body : nat -> M unit) : M unit :=
  match n with
  | O => mret tt
  | S n' => body from ;; for_range (S from) n' body
  end.

(** Modelled from the spec: the allocators of [memalloc.c] are not part of
    the sources at hand; they "allocate padded luma/chroma planes" and "the
    per-4x4-block motion-vector and reference-index array" of the
    dimensions they are called with. *)
Definition get_mem2Dpel_pad (rows cols pad_y pad_x : Z) : option buffer :=
  Some (Mem2Dpel_pad rows cols pad_y pad_x).
Definition get_mem3Dpel_pad (planes rows cols pad_y pad_x : Z)
  : option buffer := Some (Mem3Dpel_pad planes rows cols pad_y pad_x).
Definition get_mem2Dmp (rows cols : Z) : option buffer :=
  Some (Mem2Dmp rows cols).

Section Storage.
Context `{D : Defines}.

(** The block [calloc (1, sizeof (FrameStore))] returns. *)
Definition zero_FrameStore : FrameStore :=
  {| is_used := 0; is_reference := 0; is_long_term := 0;
     is_orig_reference := 0; is_output := 0;
     frame := None; top_field := None; bottom_field := None;
     layer_id := 0; view_id := 0;
     inter_view_flag := (0, 0); anchor_pic_flag := (0, 0) |}.

Definition alloc_frame_store : M ptr := fun s =>
  let l := fresh (dom (stores s)) in
  let f := zero_FrameStore in
  let f := {| is_used := 0; is_reference := 0; is_long_term := 0;
              is_orig_reference := 0; is_output := 0;
              frame := None; top_field := None; bottom_field := None;
              layer_id := layer_id f; view_id := view_id f;
              inter_view_flag := inter_view_flag f;
              anchor_pic_flag := anchor_pic_flag f |} in
  Ok (Some l) (set_stores (<[l := f]> (stores s)) s).

Definition alloc_pic_motion (size_y size_x : Z) : PicMotionParamsOld :=
  {| mb_field := Some (Bytes (to_int (size_y * size_x))) |}.

Definition alloc_storable_picture (structure : PictureStructure)
    (size_x size_y size_x_cr size_y_cr is_output : Z) : M ptr := fun s =>
  let p_Vid := vid s in
  match active_sps p_Vid with
  | None => Fault NullDeref
  | Some active_sps =>
      let l := fresh (dom (pictures s)) in
      let size_y :=
        if decide (structure = FRAME) then size_y else Z.quot size_y 2 in
      let size_y_cr :=
        if decide (structure = FRAME) then size_y_cr
        else Z.quot size_y_cr 2 in
      let rows4 := Z.shiftr size_y BLOCK_SHIFT in
      let cols4 := Z.shiftr size_x BLOCK_SHIFT in
      let sep := truthy (separate_colour_plane_flag p_Vid) in
      let pic :=
        {| structure := structure;
           poc := 0; top_poc := 0; bottom_poc := 0;
           frame_num := 0; pic_num := 0;
           long_term_pic_num := 0; long_term_frame_idx := 0;
           sp_is_long_term := 0; used_for_reference := 0;
           sp_is_output := 0; non_existing := 0;
           sp_separate_colour_plane_flag := separate_colour_plane_flag p_Vid;
           max_slice_id := 0;
           size_x := size_x; size_y := size_y;
           size_x_cr := size_x_cr; size_y_cr := size_y_cr;
           size_x_m1 := to_int (size_x - 1);
           size_y_m1 := to_int (size_y - 1);
           size_x_cr_m1 := to_int (size_x_cr - 1);
           size_y_cr_m1 := to_int (size_y_cr - 1);
           coded_frame := 0; mb_aff_frame_flag := 0;
           PicSizeInMbs := Z.quot (to_int (size_x * size_y)) 256;
           sp_iLumaPadY := iLumaPadY p_Vid;
           sp_iLumaPadX := iLumaPadX p_Vid;
           sp_iChromaPadY := iChromaPadY p_Vid;
           sp_iChromaPadX := iChromaPadX p_Vid;
           imgY := get_mem2Dpel_pad size_y size_x
                     (iLumaPadY p_Vid) (iLumaPadX p_Vid);
           imgUV :=
             if chroma_format_idc active_sps =? YUV400 then None
             else get_mem3Dpel_pad 2 size_y_cr size_x_cr
                    (iChromaPadY p_Vid) (iChromaPadX p_Vid);
           mv_info := get_mem2Dmp rows4 cols4;
           motion := alloc_pic_motion rows4 cols4;
           JVmv_info :=
             replicate MAX_PLANE
               (if sep then get_mem2Dmp rows4 cols4 else None);
           JVmotion :=
             replicate MAX_PLANE
               (if sep then alloc_pic_motion rows4 cols4
                else {| mb_field := None |});
           sp_top_field := no_reference_picture p_Vid;
           sp_bottom_field := no_reference_picture p_Vid;
           sp_frame := no_reference_picture p_Vid;
           sp_view_id := if MVC_EXTENSION_ENABLE then -1 else 0;
           dec_ref_pic_marking_buffer := None;
           seiHasTone_mapping := 0;
           tone_mapping_lut := None;
           iLumaStride := to_int (size_x + to_int (2 * iLumaPadX p_Vid));
           iChromaStride :=
             to_int (size_x_cr + to_int (2 * iChromaPadX p_Vid));
           iLumaExpandedHeight :=
             to_int (size_y + to_int (2 * iLumaPadY p_Vid));
           iChromaExpandedHeight :=
             to_int (size_y_cr + to_int (2 * iChromaPadY p_Vid));
           listX :=
             replicate MAX_NUM_SLICES
               (if negb (truthy (frame_mbs_only_flag active_sps))
                   && negb (bool_decide (structure = FRAME))
                then (Some (Pointers MAX_LIST_SIZE),
                      Some (Pointers MAX_LIST_SIZE))
                else (None, None)) |} in
      Ok (Some l) (set_pictures (<[l := pic]> (pictures s)) s)
  end.

Definition free_pic_motion (motion : PicMotionParamsOld)
  : PicMotionParamsOld :=
  match mb_field motion with
  | Some _ => {| mb_field := None |}
  | None => motion
  end.

(** The body of [free_storable_picture] up to the final [free (p)]: each
    buffer the picture owns is released and its pointer cleared
    ([tone_mapping_lut] is released without being cleared). *)
Definition release_buffers (p : StorablePicture) : StorablePicture :=
  let sep := truthy (sp_separate_colour_plane_flag p) in
  {| structure := structure p;
     poc := poc p; top_poc := top_poc p; bottom_poc := bottom_poc p;
     frame_num := frame_num p; pic_num := pic_num p;
     long_term_pic_num := long_term_pic_num p;
     long_term_frame_idx := long_term_frame_idx p;
     sp_is_long_term := sp_is_long_term p;
     used_for_reference := used_for_reference p;
     sp_is_output := sp_is_output p; non_existing := non_existing p;
     sp_separate_colour_plane_flag := sp_separate_colour_plane_flag p;
     max_slice_id := max_slice_id p;
     size_x := size_x p; size_y := size_y p;
     size_x_cr := size_x_cr p; size_y_cr := size_y_cr p;
     size_x_m1 := size_x_m1 p; size_y_m1 := size_y_m1 p;
     size_x_cr_m1 := size_x_cr_m1 p; size_y_cr_m1 := size_y_cr_m1 p;
     coded_frame := coded_frame p; mb_aff_frame_flag := mb_aff_frame_flag p;
     PicSizeInMbs := PicSizeInMbs p;
     sp_iLumaPadY := sp_iLumaPadY p; sp_iLumaPadX := sp_iLumaPadX p;
     sp_iChromaPadY := sp_iChromaPadY p; sp_iChromaPadX := sp_iChromaPadX p;
     imgY := None;
     imgUV := None;
     mv_info := None;
     motion := free_pic_motion (motion p);
     JVmv_info :=
       if sep then (fun _ => None) <$> JVmv_info p else JVmv_info p;
     JVmotion :=
       if sep then free_pic_motion <$> JVmotion p else JVmotion p;
     sp_top_field := sp_top_field p; sp_bottom_field := sp_bottom_field p;
     sp_frame := sp_frame p;
     sp_view_id := sp_view_id p;
     dec_ref_pic_marking_buffer := dec_ref_pic_marking_buffer p;
     seiHasTone_mapping := seiHasTone_mapping p;
     tone_mapping_lut := tone_mapping_lut p;
     iLumaStride := iLumaStride p; iChromaStride := iChromaStride p;
     iLumaExpandedHeight := iLumaExpandedHeight p;
     iChromaExpandedHeight := iChromaExpandedHeight p;
     listX := (fun _ => (None, None)) <$> listX p |}.

Definition free_storable_picture (p : ptr) : M unit :=
  match p with
  | Some l =>
      update_picture p release_buffers ;;
      free_picture_block l
  | None => mret tt
  end.

Definition free_frame_store (f : ptr) : M unit :=
  match f with
  | Some l =>
      x ← load_store f;
      match frame x with
      | Some _ =>
          free_storable_picture (frame x) ;;
          update_store f (set_frame None)
      | None => mret tt
      end ;;
      x ← load_store f;
      match top_field x with
      | Some _ =>
          free_storable_picture (top_field x) ;;
          update_store f (set_top_field None)
      | None => mret tt
      end ;;
      x ← load_store f;
      match bottom_field x with
      | Some _ =>
          free_storable_picture (bottom_field x) ;;
          update_store f (set_bottom_field None)
      | None => mret tt
      end ;;
      free_store_block l
  | None => mret tt
  end.

(** Dereference of the back pointer [p_Dpb->p_Vid]. *)
Definition deref_vid (p : option vid_handle) : M VideoParameters :=
  match p with
  | Some TheVid => s ← get; mret (vid s)
  | None => crash NullDeref
  end.

Definition free_dpb : M unit :=
  s ← get;
  let p_Vid := p_Vid (dpb s) in
  match fs (dpb s) with
  | Some a =>
      for_range 0 (Z.to_nat (size (dpb s)))
        (fun i => f ← array_get (Some a) i; free_frame_store f) ;;
      free_array a ;;
      modify_dpb (set_fs None)
  | None => mret tt
  end ;;
  match fs_ref (dpb s) with
  | Some a => free_array a
  | None => mret tt
  end ;;
  match fs_ltref (dpb s) with
  | Some a => free_array a
  | None => mret tt
  end ;;
  (if MVC_EXTENSION_ENABLE then
     match fs_ilref (dpb s) with
     | Some a =>
         for_range 0 1
           (fun i => f ← array_get (Some a) i; free_frame_store f) ;;
         free_array a ;;
         modify_dpb (set_fs_ilref None)
     | None => mret tt
     end ;;
     modify_dpb (set_last_output_view_id (-1))
   else mret tt) ;;
  modify_dpb (set_last_output_poc INT_MIN) ;;
  modify_dpb (set_init_done 0) ;;
  v ← deref_vid p_Vid;
  when (truthy (conceal_mode v) || bool_decide (is_Some (last_out_fs v)))
    (free_frame_store (last_out_fs v)) ;;
  v ← deref_vid p_Vid;
  match no_reference_picture v with
  | Some _ =>
      free_storable_picture (no_reference_picture v) ;;
      modify_vid (set_no_reference_picture None)
  | None => mret tt
  end.

Definition undersized_message : string :=
  "DPB size at specified level is smaller than the specified number of reference frames. This is not allowed."
  ++ String (Ascii.ascii_of_nat 10) "".

(** [p_Dpb->fs[i]->view_id = ...] and the two flag pairs, the
    initialisation an MVC build gives a frame store. *)
Definition init_view_fields (f : ptr) : M unit :=
  update_store f (set_view_id MVC_INIT_VIEW_ID) ;;
  update_store f (set_inter_view_flag (0, 0)) ;;
  update_store f (set_anchor_pic_flag (0, 0)).

Definition init_dpb (type : Z) : M unit :=
  s ← get;
  let active_sps := active_sps (vid s) in
  modify_dpb (set_p_Vid (Some TheVid)) ;;
  when (truthy (init_done (dpb s))) free_dpb ;;
  sps ← match active_sps with
        | Some x => mret x
        | None => crash NullDeref
        end;
  n ← getDpbSize sps;
  s ← get;
  let plus := if type =? 2 then snd (dpb_plus (p_Inp (vid s)))
              else fst (dpb_plus (p_Inp (vid s))) in
  modify_dpb (set_size (to_uint (to_int (n + plus)))) ;;
  modify_dpb (set_dpb_num_ref_frames (to_int (num_ref_frames sps))) ;;
  s ← get;
  when (if MVC_EXTENSION_ENABLE
        then to_uint (sps_max_dec_frame_buffering sps) <? num_ref_frames sps
        else size (dpb s) <? num_ref_frames sps)
    (error undersized_message 1000) ;;
  modify_dpb (set_used_size 0) ;;
  modify_dpb (set_last_picture None) ;;
  modify_dpb (set_ref_frames_in_buffer 0) ;;
  modify_dpb (set_ltref_frames_in_buffer 0) ;;
  a ← calloc_array (size (dpb s));
  modify_dpb (set_fs a) ;;
  a_ref ← calloc_array (size (dpb s));
  modify_dpb (set_fs_ref a_ref) ;;
  a_ltref ← calloc_array (size (dpb s));
  modify_dpb (set_fs_ltref a_ltref) ;;
  a_ilref ← (if MVC_EXTENSION_ENABLE then
               a_ilref ← calloc_array 1;
               modify_dpb (set_fs_ilref a_ilref) ;;
               mret a_ilref
             else mret None);
  for_range 0 (Z.to_nat (size (dpb s)))
    (fun i =>
       f ← alloc_frame_store;
       array_set a i f ;;
       array_set a_ref i None ;;
       array_set a_ltref i None ;;
       update_store f (set_layer_id MVC_INIT_VIEW_ID) ;;
       if MVC_EXTENSION_ENABLE then init_view_fields f else mret tt) ;;
  (if MVC_EXTENSION_ENABLE then
     if type =? 2 then
       f ← alloc_frame_store;
       array_set a_ilref 0 f ;;
       init_view_fields f
     else array_set a_ilref 0 None
   else mret tt) ;;
  s ← get;
  match no_reference_picture (vid s) with
  | None =>
      p ← alloc_storable_picture FRAME (width (vid s)) (height (vid s))
            (width_cr (vid s)) (height_cr (vid s)) 1;
      modify_vid (set_no_reference_picture p) ;;
      update_picture p (fun x => set_sp_top_field p x) ;;
      update_picture p (fun x => set_sp_bottom_field p x) ;;
      update_picture p (fun x => set_sp_frame p x)
  | Some _ => mret tt
  end ;;
  modify_dpb (set_last_output_poc INT_MIN) ;;
  (if MVC_EXTENSION_ENABLE
   then modify_dpb (set_last_output_view_id (-1)) else mret tt) ;;
  modify_vid (set_last_has_mmco_5 0) ;;
  modify_dpb (set_init_done 1) ;;
  s ← get;
  if truthy (conceal_mode (vid s))
     && negb (bool_decide (is_Some (last_out_fs (vid s))))
  then f ← alloc_frame_store; modify_vid (set_last_out_fs f)
  else mret tt.

End Storage.

(** ** Ownership

    What [free_dpb] releases, read off a state before the call. *)

Section Ownership.
Context `{D : Defines}.

(** The pictures a frame store points to. *)
Definition attached (f : FrameStore) : list loc :=
  omap id [frame f; top_field f; bottom_field f].

Definition attached_at (s : State) (l : loc) : list loc :=
  match stores s !! l with
  | Some f => attached f
  | None => []
  end.

(** The first [n] entries of the array [a] points to. *)
Definition array_prefix (s : State) (a : ptr) (n : nat) : list ptr :=
  match a with
  | Some l => match arrays s !! l with
              | Some xs => take n xs
              | None => []
              end
  | None => []
  end.

(** The slots of the pool: [fs[0]], ..., [fs[size - 1]]. *)
Definition pool_slots (s : State) : list ptr :=
  array_prefix s (fs (dpb s)) (Z.to_nat (size (dpb s))).

(** The frame stores handed to [free_frame_store], in order. *)
Definition stores_to_free (s : State) : list loc :=
  omap id
    (pool_slots s
     ++ (if MVC_EXTENSION_ENABLE
         then array_prefix s (fs_ilref (dpb s)) 1 else [])
     ++ [last_out_fs (vid s)]).

Definition pictures_to_free (s : State) : list loc :=
  (stores_to_free s ≫= attached_at s)
  ++ omap id [no_reference_picture (vid s)].

Definition arrays_to_free (s : State) : list loc :=
  omap id
    ([fs (dpb s); fs_ref (dpb s); fs_ltref (dpb s)]
     ++ (if MVC_EXTENSION_ENABLE then [fs_ilref (dpb s)] else [])).

(** The array [a] points to, if any, is live and has [n] entries. *)
Definition array_holds (s : State) (a : ptr) (n : nat) : Prop :=
  match a with
  | Some l => match arrays s !! l with
              | Some xs => (n <= length xs)%nat
              | None => False
              end
  | None => True
  end.

(** Removal of the keys [ks], one after the other. *)
Definition remove_keys {X} (ks : list loc) (m : gmap loc X) : gmap loc X :=
  foldl (fun m k => delete k m) m ks.

(** A buffer that can be torn down: its back pointer is set, and what it
    owns is live and owned once. *)
Definition teardown_ready (s : State) : Prop :=
  p_Vid (dpb s) = Some TheVid
  /\ array_holds s (fs (dpb s)) (Z.to_nat (size (dpb s)))
  /\ (MVC_EXTENSION_ENABLE = true -> array_holds s (fs_ilref (dpb s)) 1)
  /\ NoDup (arrays_to_free s)
  /\ Forall (fun l => is_Some (arrays s !! l)) (arrays_to_free s)
  /\ NoDup (stores_to_free s)
  /\ Forall (fun l => is_Some (stores s !! l)) (stores_to_free s)
  /\ NoDup (pictures_to_free s)
  /\ Forall (fun l => is_Some (pictures s !! l)) (pictures_to_free s).

Global Instance vid_handle_eq_dec : EqDecision vid_handle.
Proof. solve_decision. Defined.

Global Instance array_holds_dec s a n : Decision (array_holds s a n).
Proof.
  unfold array_holds. destruct a as [l |]; [| apply _].
  destruct (arrays s !! l); apply _.
Defined.

Global Instance teardown_ready_dec s : Decision (teardown_ready s).
Proof. unfold teardown_ready. apply _. Defined.

(** The buffer after [free_dpb]. *)
Definition torn_down (d : DecodedPictureBuffer) : DecodedPictureBuffer :=
  {| p_Vid := p_Vid d;
     fs := None;
     fs_ref := fs_ref d;
     fs_ltref := fs_ltref d;
     fs_ilref := if MVC_EXTENSION_ENABLE then None else fs_ilref d;
     size := size d;
     used_size := used_size d;
     ref_frames_in_buffer := ref_frames_in_buffer d;
     ltref_frames_in_buffer := ltref_frames_in_buffer d;
     last_output_poc := INT_MIN;
     last_output_view_id :=
       if MVC_EXTENSION_ENABLE then -1 else last_output_view_id d;
     init_done := 0;
     dpb_num_ref_frames := dpb_num_ref_frames d;
     last_picture := last_picture d |}.

(** A state reached from [s0] by releasing the frame stores [S], the
    pictures [P] and the arrays [A]. *)
Definition released (s0 : State) (S P A : list loc)
    (d : DecodedPictureBuffer) (v : VideoParameters) : State :=
  {| vid := v; dpb := d;
     pictures := remove_keys P (pictures s0);
     stores := remove_keys S (stores s0);
     arrays := remove_keys A (arrays s0);
     stderr := stderr s0 |}.

(** The state [free_dpb] leaves. *)
Definition after_free_dpb (s : State) : State :=
  released s (stores_to_free s) (pictures_to_free s) (arrays_to_free s)
    (torn_down (dpb s)) (set_no_reference_picture None (vid s)).

(** The frame store a slot of the pool holds after [init_dpb]. *)
Definition pool_store : FrameStore :=
  {| is_used := 0; is_reference := 0; is_long_term := 0;
     is_orig_reference := 0; is_output := 0;
     frame := None; top_field := None; bottom_field := None;
     layer_id := MVC_INIT_VIEW_ID;
     view_id := if MVC_EXTENSION_ENABLE then MVC_INIT_VIEW_ID else 0;
     inter_view_flag := (0, 0); anchor_pic_flag := (0, 0) |}.

(** The addresses [n] successive calls of [alloc_frame_store] return when
    each new frame store is kept, and the frame stores afterwards. *)
Fixpoint fresh_stores (n : nat) (m : gmap loc FrameStore) : list loc :=
  match n with
  | O => []
  | S n' =>
      let l := fresh (dom m) in l :: fresh_stores n' (<[l := pool_store]> m)
  end.

Definition add_stores (ls : list loc) (m : gmap loc FrameStore)
  : gmap loc FrameStore :=
  foldl (fun m l => <[l := pool_store]> m) m ls.

End Ownership.

(** ** A concrete build and a concrete decoder instance

    The values JM's headers give the macros, used to run the functions on
    concrete inputs. *)

Definition jm_defines (mvc : bool) : Defines :=
  {| MVC_EXTENSION_ENABLE := mvc;
     MVC_HIGH := 118;
     STEREO_HIGH := 128;
     is_FREXT_profile := fun p => (100 <=? p) || (p =? 44);
     RoundLog2 := fun v => (Z.log2 (v * v) + 1) / 2;
     YUV400 := 0;
     BLOCK_SHIFT := 2;
     MAX_PLANE := 3;
     MAX_NUM_SLICES := 50;
     MVC_INIT_VIEW_ID := -1 |}.

Definition no_vui : vui_seq_parameters_t :=
  {| bitstream_restriction_flag := 0; max_dec_frame_buffering := 0 |}.

(** A frame-only High-profile parameter set of [w] x [h] macroblocks. *)
Definition sps_of (level w h refs : Z) : seq_parameter_set_rbsp_t :=
  {| profile_idc := 100; constrained_set3_flag := 0; level_idc := level;
     chroma_format_idc := 1; num_ref_frames := refs;
     pic_width_in_mbs_minus1 := w - 1;
     pic_height_in_map_units_minus1 := h - 1;
     frame_mbs_only_flag := 1;
     vui_parameters_present_flag := 0; vui_seq_parameters := no_vui;
     sps_max_dec_frame_buffering := 0 |}.

Definition with_vui (mdfb : Z) (sps : seq_parameter_set_rbsp_t)
  : seq_parameter_set_rbsp_t :=
  {| profile_idc := profile_idc sps;
     constrained_set3_flag := constrained_set3_flag sps;
     level_idc := level_idc sps;
     chroma_format_idc := chroma_format_idc sps;
     num_ref_frames := num_ref_frames sps;
     pic_width_in_mbs_minus1 := pic_width_in_mbs_minus1 sps;
     pic_height_in_map_units_minus1 := pic_height_in_map_units_minus1 sps;
     frame_mbs_only_flag := frame_mbs_only_flag sps;
     vui_parameters_present_flag := 1;
     vui_seq_parameters :=
       {| bitstream_restriction_flag := 1; max_dec_frame_buffering := mdfb |};
     sps_max_dec_frame_buffering := sps_max_dec_frame_buffering sps |}.

(** The [DPBPLUS0] and [DPBPLUS1] defaults of the [Map] table in
    [configfile.h]. *)
Definition default_dpb_plus : Z * Z := (1, 0).

(** A decoder instance as [calloc] and the configuration defaults leave
    it, with [sps] activated. *)
Definition vid_of (sps : seq_parameter_set_rbsp_t) : VideoParameters :=
  {| p_Inp := {| dpb_plus := default_dpb_plus |};
     active_sps := Some sps;
     active_subset_sps := None;
     vid_profile_idc := profile_idc sps;
     width := 16 * (pic_width_in_mbs_minus1 sps + 1);
     height := 16 * (pic_height_in_map_units_minus1 sps + 1);
     width_cr := 8 * (pic_width_in_mbs_minus1 sps + 1);
     height_cr := 8 * (pic_height_in_map_units_minus1 sps + 1);
     iLumaPadY := 32; iLumaPadX := 32; iChromaPadY := 16; iChromaPadX := 16;
     separate_colour_plane_flag := 0;
     conceal_mode := 0;
     last_has_mmco_5 := 0;
     last_out_fs := None;
     no_reference_picture := None |}.

(** A buffer as [calloc] leaves it. *)
Definition zero_dpb : DecodedPictureBuffer :=
  {| p_Vid := None; fs := None; fs_ref := None; fs_ltref := None;
     fs_ilref := None; size := 0; used_size := 0;
     ref_frames_in_buffer := 0; ltref_frames_in_buffer := 0;
     last_output_poc := 0; last_output_view_id := 0; init_done := 0;
     dpb_num_ref_frames := 0; last_picture := None |}.

Definition state_of (sps : seq_parameter_set_rbsp_t) : State :=
  {| vid := vid_of sps; dpb := zero_dpb;
     pictures := ∅; stores := ∅; arrays := ∅; stderr := [] |}.

(** [state_of] with [DPBPLUS0] and [DPBPLUS1] configured as [plus]. *)
Definition configured (plus : Z * Z) (s : State) : State :=
  let v := vid s in
  set_vid
    {| p_Inp := {| dpb_plus := plus |};
       active_sps := active_sps v;
       active_subset_sps := active_subset_sps v;
       vid_profile_idc := vid_profile_idc v;
       width := width v; height := height v;
       width_cr := width_cr v; height_cr := height_cr v;
       iLumaPadY := iLumaPadY v; iLumaPadX := iLumaPadX v;
       iChromaPadY := iChromaPadY v; iChromaPadX := iChromaPadX v;
       separate_colour_plane_flag := separate_colour_plane_flag v;
       conceal_mode := conceal_mode v;
       last_has_mmco_5 := last_has_mmco_5 v;
       last_out_fs := last_out_fs v;
       no_reference_picture := no_reference_picture v |} s.

(** The state a run ends in. *)
Definition final_state {A} (m : M A) (s : State) : State :=
  match m s with
  | Ok _ s' => s'
  | Exit _ s' => s'
  | Fault _ => s
  end.

(** A parameter set that carries the MVC field [max_dec_frame_buffering]. *)
Definition with_sps_max_dec_frame_buffering (m : Z)
    (sps : seq_parameter_set_rbsp_t) : seq_parameter_set_rbsp_t :=
  {| profile_idc := profile_idc sps;
     constrained_set3_flag := constrained_set3_flag sps;
     level_idc := level_idc sps;
     chroma_format_idc := chroma_format_idc sps;
     num_ref_frames := num_ref_frames sps;
     pic_width_in_mbs_minus1 := pic_width_in_mbs_minus1 sps;
     pic_height_in_map_units_minus1 := pic_height_in_map_units_minus1 sps;
     frame_mbs_only_flag := frame_mbs_only_flag sps;
     vui_parameters_present_flag := vui_parameters_present_flag sps;
     vui_seq_parameters := vui_seq_parameters sps;
     sps_max_dec_frame_buffering := m |}.

(** A buffer in use: initialised for 1920x1088 at level 4, with a decoded
    frame in its first slot. *)
Definition buffer_in_use (mvc : bool) : State :=
  let D := jm_defines mvc in
  let sps := with_sps_max_dec_frame_buffering 4 (sps_of 40 120 68 1) in
  final_state
    (init_dpb 0 ;;
     p ← alloc_storable_picture FRAME 1920 1088 960 544 0;
     s ← get;
     f ← array_get (fs (dpb s)) 0;
     update_store f (set_frame p))
    (state_of sps).

(** * Properties *)

(** ** Machine integers *)

Lemma to_int_small z : INT_MIN <= z <= INT_MAX -> to_int z = z.
Proof.
  unfold to_int, to_uint, INT_MIN, INT_MAX, UINT_MOD. intros H.
  destruct (Z_lt_le_dec z 0) as [Hneg | Hpos].
  - replace (z mod 4294967296) with (z + 4294967296).
    + destruct (Z.ltb_spec (z + 4294967296) 2147483648); lia.
    + apply Z.mod_unique with (q := -1); lia.
  - rewrite Z.mod_small by lia.
    destruct (Z.ltb_spec z 2147483648); lia.
Qed.

Lemma to_uint_mul_idemp a b : to_uint (to_uint a * to_uint b) = to_uint (a * b).
Proof. unfold to_uint. symmetry. apply Z.mul_mod. discriminate. Qed.

Lemma to_int_to_uint z : to_int (to_uint z) = to_int z.
Proof.
  unfold to_int. f_equal. unfold to_uint. rewrite Z.mod_mod; [reflexivity | discriminate].
Qed.

Section PolicyFacts.
Context `{D : Defines}.

Lemma pic_size_mb_of_exact sps :
  0 <= picture_size sps <= INT_MAX -> pic_size_mb_of sps = picture_size sps.
Proof.
  intros H. unfold pic_size_mb_of.
  rewrite (to_uint_mul_idemp (_ + 1) (_ + 1)), to_uint_mul_idemp, to_int_to_uint.
  fold (picture_size sps). apply to_int_small. unfold INT_MIN. lia.
Qed.

Lemma level_switch_budget_range sps b :
  level_switch sps = inr (Some b) -> 396 <= b <= 696320.
Proof.
  unfold level_switch.
  repeat match goal with
         | |- context [if ?c then _ else _] => destruct c
         end; intros [= <-]; lia.
Qed.

Lemma level_switch_zero sps r :
  level_switch sps = inl r <-> level_idc sps = 0 /\ r = 16.
Proof.
  unfold level_switch. destruct (Z.eqb_spec (level_idc sps) 0) as [-> | Hne].
  - split; [intros [= <-] | intros [_ ->]]; auto.
  - split; [| tauto].
    repeat match goal with
           | |- context [if ?c then _ else _] => destruct c
           end; discriminate.
Qed.

Lemma level_switch_default sps :
  level_switch sps = inr None <-> level_idc sps ∉ recognised_levels.
Proof.
  unfold level_switch, recognised_levels.
  repeat match goal with
         | |- context [?a =? ?b] => destruct (Z.eqb_spec a b) as [-> | ?]
         end; simpl;
    repeat match goal with
           | |- context [if ?c then _ else _] => destruct c
           end;
    (split;
     [ first [ discriminate
             | intros _; rewrite list_elem_of_In; simpl; lia ]
     | first [ reflexivity
             | intros H; exfalso; apply H; rewrite list_elem_of_In;
               simpl; lia ] ]).
Qed.

Lemma size_after_views_single s b p :
  single_view (vid s) = true -> p <> 0 ->
  size_after_views b p s = Ok (imin (to_int (Z.quot b p)) 16) s.
Proof.
  intros Hsv Hp. unfold size_after_views, c_div, single_view in *.
  unfold mbind, M_bind, mret, M_ret, get. simpl.
  destruct (Z.eqb_spec p 0) as [? | _]; [contradiction |].
  apply negb_true_iff in Hsv. rewrite Hsv. reflexivity.
Qed.

Lemma size_after_vui_none sps n s :
  vui_override sps = false -> size_after_vui sps n s = Ok n s.
Proof.
  unfold size_after_vui, vui_override. intros ->. reflexivity.
Qed.

Lemma size_after_vui_within sps n s :
  vui_override sps = true ->
  to_int (max_dec_frame_buffering (vui_seq_parameters sps)) <= n ->
  size_after_vui sps n s
  = Ok (imax 1 (to_int (max_dec_frame_buffering (vui_seq_parameters sps)))) s.
Proof.
  unfold size_after_vui, vui_override. intros -> Hle.
  destruct (Z.ltb_spec n (to_int (max_dec_frame_buffering
                                    (vui_seq_parameters sps)))); [lia |].
  reflexivity.
Qed.

Lemma size_after_vui_excess sps n s :
  vui_override sps = true ->
  n < to_int (max_dec_frame_buffering (vui_seq_parameters sps)) ->
  size_after_vui sps n s
  = Ok (imax 1 (to_int (max_dec_frame_buffering (vui_seq_parameters sps))))
       (set_stderr
          (stderr s ++ ["max_dec_frame_buffering larger than MaxDpbSize"]) s).
Proof.
  unfold size_after_vui, vui_override. intros -> Hlt.
  destruct (Z.ltb_spec n (to_int (max_dec_frame_buffering
                                    (vui_seq_parameters sps)))); [| lia].
  reflexivity.
Qed.

Lemma getDpbSize_recognised sps b s :
  level_switch sps = inr (Some b) ->
  getDpbSize sps s
  = (size_after_views b (pic_size_mb_of sps) ≫= size_after_vui sps) s.
Proof. unfold getDpbSize. intros ->. reflexivity. Qed.

Lemma quot_budget b p :
  0 <= b <= 696320 -> 0 < p -> to_int (Z.quot b p) = b / p.
Proof.
  intros Hb Hp. rewrite Z.quot_div_nonneg by lia.
  apply to_int_small. unfold INT_MIN, INT_MAX.
  pose proof (Z.div_pos b p ltac:(lia) Hp).
  pose proof (Z.div_le_upper_bound b p 696320 Hp ltac:(nia)). lia.
Qed.

(** The single-view capacity before the VUI step. *)
Lemma single_view_capacity sps b s :
  level_switch sps = inr (Some b) ->
  single_view (vid s) = true ->
  0 < picture_size sps <= INT_MAX ->
  size_after_views b (pic_size_mb_of sps) s
  = Ok (Z.min (b / picture_size sps) 16) s.
Proof.
  intros Hb Hsv Hp.
  rewrite pic_size_mb_of_exact by lia.
  rewrite size_after_views_single by (auto; lia).
  pose proof (level_switch_budget_range _ _ Hb).
  rewrite quot_budget by lia. reflexivity.
Qed.

End PolicyFacts.

Section CapacityClaims.
Context `{D : Defines}.

Lemma level_switch_same sps sps' :
  level_idc sps = level_idc sps' ->
  profile_idc sps = profile_idc sps' ->
  constrained_set3_flag sps = constrained_set3_flag sps' ->
  level_switch sps' = level_switch sps.
Proof. unfold level_switch. intros -> -> ->. reflexivity. Qed.

(** A valid pair without override and multiview: the result is the
    clipped quotient, or 16 at level 0. *)
Lemma getDpbSize_valid sps s :
  single_view (vid s) = true ->
  valid_level_size sps = true ->
  vui_override sps = false ->
  getDpbSize sps s
  = Ok (match level_switch sps with
        | inr (Some b) => Z.min (b / picture_size sps) 16
        | _ => 16
        end) s.
Proof.
  intros Hsv Hvalid Hvui. unfold valid_level_size in Hvalid.
  destruct (level_switch sps) as [r | [b |]] eqn:Hsw; [| | discriminate].
  - pose proof (proj1 (level_switch_zero _ _) Hsw) as [_ ->].
    unfold getDpbSize. rewrite Hsw. reflexivity.
  - apply andb_true_iff in Hvalid as [Hlo Hhi].
    apply Z.leb_le in Hlo, Hhi.
    pose proof (level_switch_budget_range _ _ Hsw).
    rewrite (getDpbSize_recognised _ b) by assumption.
    unfold mbind, M_bind.
    rewrite single_view_capacity by (auto; unfold INT_MAX; lia).
    apply size_after_vui_none. assumption.
Qed.

(** C3: for a valid (level, picture size) pair of a single-view stream
    without VUI override, [getDpbSize] returns a value between 1 and 16;
    and with the level fixed, a picture of at least the size gets at most
    that value. *)
Theorem getDpbSize_range_and_antitone sps s :
  single_view (vid s) = true ->
  valid_level_size sps = true ->
  vui_override sps = false ->
  exists n,
    getDpbSize sps s = Ok n s /\ 1 <= n <= 16 /\
    forall sps',
      valid_level_size sps' = true ->
      vui_override sps' = false ->
      level_idc sps' = level_idc sps ->
      profile_idc sps' = profile_idc sps ->
      constrained_set3_flag sps' = constrained_set3_flag sps ->
      picture_size sps <= picture_size sps' ->
      exists n', getDpbSize sps' s = Ok n' s /\ n' <= n.
Proof.
  intros Hsv Hvalid Hvui.
  eexists. split; [apply getDpbSize_valid; assumption |].
  pose proof Hvalid as Hv. unfold valid_level_size in Hv.
  destruct (level_switch sps) as [r | [b |]] eqn:Hsw; [| | discriminate].
  - split; [lia |]. intros sps' Hvalid' Hvui' Hl Hp Hc Hsize.
    eexists. split; [apply getDpbSize_valid; assumption |].
    rewrite (level_switch_same sps sps'), Hsw by congruence. lia.
  - apply andb_true_iff in Hv as [Hlo Hhi]. apply Z.leb_le in Hlo, Hhi.
    pose proof (level_switch_budget_range _ _ Hsw) as Hb.
    assert (1 <= b / picture_size sps)
      by (apply Z.div_le_lower_bound; lia).
    split; [lia |]. intros sps' Hvalid' Hvui' Hl Hp Hc Hsize.
    eexists. split; [apply getDpbSize_valid; assumption |].
    rewrite (level_switch_same sps sps'), Hsw by congruence.
    assert (b / picture_size sps' <= b / picture_size sps)
      by (apply Z.div_le_compat_l; lia).
    lia.
Qed.

(** C6: for a recognised level other than 0, the picture size is
    width x height in macroblocks, doubled for field coding; the budget of
    the level is divided by it, rounding down, and for a single-view stream
    the quotient is clipped to 16.  This is the size the VUI step starts
    from, and the result where the VUI step does not apply. *)
Theorem getDpbSize_budget_quotient_clip sps s :
  level_idc sps ∈ recognised_levels ->
  level_idc sps <> 0 ->
  single_view (vid s) = true ->
  0 < picture_size sps <= INT_MAX ->
  exists budget,
    level_switch sps = inr (Some budget) /\
    pic_size_mb_of sps
    = (pic_width_in_mbs_minus1 sps + 1)
      * (pic_height_in_map_units_minus1 sps + 1)
      * (if frame_mbs_only_flag sps =? 0 then 2 else 1) /\
    size_after_views budget (pic_size_mb_of sps) s
    = Ok (Z.min (budget / pic_size_mb_of sps) 16) s /\
    getDpbSize sps s
    = size_after_vui sps (Z.min (budget / pic_size_mb_of sps) 16) s /\
    (vui_override sps = false ->
     getDpbSize sps s = Ok (Z.min (budget / pic_size_mb_of sps) 16) s).
Proof.
  intros Hrec Hnz Hsv Hp.
  destruct (level_switch sps) as [r | [b |]] eqn:Hsw.
  - apply level_switch_zero in Hsw. tauto.
  - exists b. split; [reflexivity |].
    assert (getDpbSize sps s
            = size_after_vui sps (Z.min (b / picture_size sps) 16) s) as Hg.
    { rewrite (getDpbSize_recognised _ b) by assumption.
      unfold mbind, M_bind.
      rewrite single_view_capacity by assumption. reflexivity. }
    pose proof (pic_size_mb_of_exact sps ltac:(lia)) as Hexact.
    pose proof (single_view_capacity _ _ _ Hsw Hsv Hp) as Hviews.
    rewrite Hexact in *. repeat split.
    + unfold picture_size, truthy.
      destruct (frame_mbs_only_flag sps =? 0); reflexivity.
    + exact Hviews.
    + exact Hg.
    + intros Hvui. rewrite Hg. apply size_after_vui_none. assumption.
  - apply level_switch_default in Hsw. contradiction.
Qed.

(** The half of C1 the code keeps: an override within the bound replaces
    the computed size, and an override below 1 counts as 1. *)
Lemma getDpbSize_override_within sps s budget :
  level_switch sps = inr (Some budget) ->
  single_view (vid s) = true ->
  0 < picture_size sps <= INT_MAX ->
  vui_override sps = true ->
  to_int (max_dec_frame_buffering (vui_seq_parameters sps))
  <= Z.min (budget / picture_size sps) 16 ->
  getDpbSize sps s
  = Ok (Z.max 1 (to_int (max_dec_frame_buffering (vui_seq_parameters sps))))
       s.
Proof.
  intros Hsw Hsv Hp Hvui Hle.
  rewrite (getDpbSize_recognised _ budget) by assumption.
  unfold mbind, M_bind. rewrite single_view_capacity by assumption.
  apply size_after_vui_within; assumption.
Qed.

(** An override above the bound: the message is printed and the override
    is returned all the same. *)
Lemma getDpbSize_override_excess sps s budget :
  level_switch sps = inr (Some budget) ->
  single_view (vid s) = true ->
  0 < picture_size sps <= INT_MAX ->
  vui_override sps = true ->
  Z.min (budget / picture_size sps) 16
  < to_int (max_dec_frame_buffering (vui_seq_parameters sps)) ->
  getDpbSize sps s
  = Ok (Z.max 1 (to_int (max_dec_frame_buffering (vui_seq_parameters sps))))
       (set_stderr
          (stderr s ++ ["max_dec_frame_buffering larger than MaxDpbSize"])
          s).
Proof.
  intros Hsw Hsv Hp Hvui Hlt.
  rewrite (getDpbSize_recognised _ budget) by assumption.
  unfold mbind, M_bind. rewrite single_view_capacity by assumption.
  apply size_after_vui_excess; assumption.
Qed.

(** Outside the valid pairs: a picture larger than the budget of its
    level gets 0. *)
Lemma getDpbSize_oversized_picture sps s budget :
  level_switch sps = inr (Some budget) ->
  single_view (vid s) = true ->
  budget < picture_size sps <= INT_MAX ->
  vui_override sps = false ->
  getDpbSize sps s = Ok 0 s.
Proof.
  intros Hsw Hsv Hp Hvui.
  pose proof (level_switch_budget_range _ _ Hsw).
  rewrite (getDpbSize_recognised _ budget) by assumption.
  unfold mbind, M_bind. rewrite single_view_capacity by (auto; lia).
  rewrite size_after_vui_none by assumption.
  rewrite Z.div_small by lia. reflexivity.
Qed.

(** A level without [case] label: the message is printed and the
    computation goes on from a budget of 0. *)
Lemma getDpbSize_undefined_level sps s :
  level_idc sps ∉ recognised_levels ->
  single_view (vid s) = true ->
  pic_size_mb_of sps <> 0 ->
  vui_override sps = false ->
  getDpbSize sps s = Ok 0 (set_stderr (stderr s ++ ["undefined level"]) s).
Proof.
  intros Hl Hsv Hp Hvui. apply level_switch_default in Hl.
  unfold getDpbSize. rewrite Hl.
  unfold mbind, M_bind, error, fprintf_stderr, modify, mret, M_ret.
  rewrite size_after_views_single by assumption.
  rewrite size_after_vui_none by assumption.
  rewrite Z.quot_0_l by assumption. reflexivity.
Qed.

End CapacityClaims.

(** C1: an override of 17 frames at level 3.1 with 8192 macroblocks, where
    the bound is 2: [getDpbSize] prints the message and returns 17; the
    run goes on. *)
Theorem getDpbSize_override_excess_returns (mvc : bool) :
  let D := jm_defines mvc in
  let sps := with_vui 17 (sps_of 31 128 64 1) in
  getDpbSize sps (state_of sps)
  = Ok 17 (set_stderr ["max_dec_frame_buffering larger than MaxDpbSize"]
             (state_of sps)).
Proof. destruct mvc; vm_compute; reflexivity. Qed.

(** C2: level code 7 has no [case] label: [getDpbSize] prints the message
    and returns 0; the run goes on. *)
Theorem getDpbSize_undefined_level_returns (mvc : bool) :
  let D := jm_defines mvc in
  let sps := sps_of 7 128 64 1 in
  getDpbSize sps (state_of sps)
  = Ok 0 (set_stderr ["undefined level"] (state_of sps)).
Proof. destruct mvc; vm_compute; reflexivity. Qed.

(** ** The monad *)

Lemma bind_ok {A B} (m : M A) (k : A -> M B) s a s' :
  m s = Ok a s' -> (m ≫= k) s = k a s'.
Proof. unfold mbind, M_bind. intros ->. reflexivity. Qed.

Lemma remove_keys_lookup {X} (ks : list loc) (m : gmap loc X) k :
  remove_keys ks m !! k = if decide (k ∈ ks) then None else m !! k.
Proof.
  unfold remove_keys. revert m.
  induction ks as [| k' ks IH]; intros m; simpl.
  - destruct (decide (k ∈ [])) as [H | _]; [| reflexivity].
    apply not_elem_of_nil in H. contradiction.
  - rewrite IH.
    destruct (decide (k ∈ ks)) as [Hin | Hnin],
             (decide (k ∈ k' :: ks)) as [Hin' | Hnin']; try reflexivity.
    + exfalso. apply Hnin'. right. assumption.
    + apply elem_of_cons in Hin' as [-> | ?]; [| contradiction].
      apply lookup_delete_eq.
    + apply lookup_delete_ne. intros ->. apply Hnin'. left.
Qed.

Lemma remove_keys_app {X} (ks ks' : list loc) (m : gmap loc X) :
  remove_keys (ks ++ ks') m = remove_keys ks' (remove_keys ks m).
Proof. unfold remove_keys. apply foldl_app. Qed.

Section Release.
Context `{D : Defines}.

Lemma free_storable_picture_live s p x :
  pictures s !! p = Some x ->
  free_storable_picture (Some p) s
  = Ok tt (set_pictures (delete p (pictures s)) s).
Proof.
  intros Hp.
  unfold free_storable_picture, update_picture, load_picture, write_picture,
    free_picture_block, modify, mbind, M_bind.
  rewrite Hp. simpl. rewrite lookup_insert_eq, delete_insert_eq.
  reflexivity.
Qed.

Lemma free_frame_store_live s l f :
  stores s !! l = Some f ->
  NoDup (attached f) ->
  Forall (fun p => is_Some (pictures s !! p)) (attached f) ->
  free_frame_store (Some l) s
  = Ok tt (set_stores (delete l (stores s))
             (set_pictures (remove_keys (attached f) (pictures s)) s)).
Proof.
  intros Hl Hnd Hlive. destruct s as [v d pics sts arrs err].
  destruct f as [u r lt o out [a |] [b |] [c |] lid vw ivf apf];
    cbn in Hl, Hnd, Hlive |- *;
    repeat match goal with
           | H : NoDup (_ :: _) |- _ =>
               apply NoDup_cons in H as [? ?]
           | H : Forall _ (_ :: _) |- _ =>
               apply Forall_cons in H as [[? ?] ?]
           | H : _ ∉ _ :: _ |- _ => apply not_elem_of_cons in H as [? ?]
           end;
    unfold free_frame_store, free_storable_picture, update_picture,
      update_store, load_store, load_picture, write_picture, write_store,
      free_picture_block, free_store_block, modify, mbind, M_bind, mret,
      M_ret, remove_keys;
    cbn;
    repeat (first [ rewrite Hl
                  | rewrite lookup_insert_eq
                  | rewrite lookup_delete_ne by congruence
                  | rewrite lookup_insert_ne by congruence
                  | match goal with
                    | H : ?m !! ?k = Some _ |- context [?m !! ?k] =>
                        rewrite H
                    end ]; cbn);
    rewrite ?delete_insert_eq; reflexivity.
Qed.

Lemma attached_at_other s s' ls :
  Forall (fun l => stores s' !! l = stores s !! l) ls ->
  ls ≫= attached_at s' = ls ≫= attached_at s.
Proof.
  intros H. apply Forall_bind_ext. eapply Forall_impl; [exact H |].
  intros l Hl. unfold attached_at. rewrite Hl. reflexivity.
Qed.

(** The loop of [free_dpb] over the slots [k], ..., [k + n - 1] of an
    array. *)
Lemma free_slots_ok n : forall k s a xs,
  arrays s !! a = Some xs ->
  (k + n <= length xs)%nat ->
  let ls := omap id (take n (drop k xs)) in
  NoDup ls ->
  Forall (fun l => is_Some (stores s !! l)) ls ->
  NoDup (ls ≫= attached_at s) ->
  Forall (fun p => is_Some (pictures s !! p)) (ls ≫= attached_at s) ->
  for_range k n (fun i => f ← array_get (Some a) i; free_frame_store f) s
  = Ok tt (set_stores (remove_keys ls (stores s))
             (set_pictures (remove_keys (ls ≫= attached_at s) (pictures s))
                s)).
Proof.
  induction n as [| n IH]; intros k s a xs Ha Hlen ls Hnd Hlive Hpnd Hplive.
  - subst ls. simpl. destruct s. reflexivity.
  - assert (exists p, xs !! k = Some p) as [p Hk]
      by (apply lookup_lt_is_Some; lia).
    assert (take (S n) (drop k xs) = p :: take n (drop (S k) xs)) as Htake.
    { rewrite (drop_S _ _ _ Hk). reflexivity. }
    subst ls. rewrite Htake in *. clear Htake.
    cbn [for_range].
    assert (array_get (Some a) k s = Ok p s) as Hget.
    { unfold array_get, load_array, mbind, M_bind. cbn. rewrite Ha, Hk.
      reflexivity. }
    destruct p as [l |]; cbn [omap list_omap id] in *.
    + rewrite bind_cons in Hpnd, Hplive |- *.
      apply NoDup_cons in Hnd as [Hl Hnd].
      apply Forall_cons in Hlive as [[f Hf] Hlive].
      apply NoDup_app in Hpnd as (Hfnd & Hdisj & Hpnd).
      apply Forall_app in Hplive as [Hflive Hplive].
      assert (attached_at s l = attached f) as Hat
        by (unfold attached_at; rewrite Hf; reflexivity).
      rewrite Hat in *.
      erewrite bind_ok; cycle 1.
      { erewrite bind_ok by exact Hget.
        apply free_frame_store_live; eassumption. }
      set (s1 := set_stores _ _).
      assert (Forall (fun l' => stores s1 !! l' = stores s !! l')
                (omap id (take n (drop (S k) xs)))) as Hother.
      { apply Forall_forall. intros l' Hl'. subst s1. cbn.
        apply lookup_delete_ne. intros ->. contradiction. }
      pose proof (attached_at_other s s1 _ Hother) as Hsame.
      rewrite (IH (S k) s1 a xs); try assumption; [| lia | | |].
      * rewrite Hsame, remove_keys_app. reflexivity.
      * rewrite Forall_forall in Hother, Hlive |- *.
        intros l' Hl'. rewrite Hother by assumption. auto.
      * rewrite Hsame. assumption.
      * rewrite Hsame. rewrite Forall_forall in Hplive |- *.
        intros p Hp. subst s1. unfold set_stores, set_pictures.
        cbn [pictures]. rewrite remove_keys_lookup.
        destruct (decide (p ∈ attached f)) as [Hin | _]; [| auto].
        exfalso. eapply Hdisj; eassumption.
    + erewrite bind_ok; cycle 1.
      { erewrite bind_ok by exact Hget. reflexivity. }
      replace (S k + n)%nat with (k + S n)%nat in * by lia.
      apply (IH (S k) s a xs); try assumption. lia.
Qed.

End Release.

Section Teardown.
Context `{D : Defines}.

Lemma NoDup_app_fresh {A} (l1 l2 : list A) x :
  NoDup (l1 ++ l2) -> x ∈ l2 -> x ∉ l1.
Proof.
  intros (_ & Hdisj & _)%NoDup_app Hin2 Hin1. exact (Hdisj x Hin1 Hin2).
Qed.

Lemma released_lookup_store s0 S P A d v l :
  l ∉ S -> stores (released s0 S P A d v) !! l = stores s0 !! l.
Proof.
  intros Hl. cbn [released stores]. rewrite remove_keys_lookup.
  destruct (decide (l ∈ S)); [contradiction | reflexivity].
Qed.

Lemma released_lookup_picture s0 S P A d v p :
  p ∉ P -> pictures (released s0 S P A d v) !! p = pictures s0 !! p.
Proof.
  intros Hp. cbn [released pictures]. rewrite remove_keys_lookup.
  destruct (decide (p ∈ P)); [contradiction | reflexivity].
Qed.

Lemma released_lookup_array s0 S P A d v a :
  a ∉ A -> arrays (released s0 S P A d v) !! a = arrays s0 !! a.
Proof.
  intros Ha. cbn [released arrays]. rewrite remove_keys_lookup.
  destruct (decide (a ∈ A)); [contradiction | reflexivity].
Qed.

(** The loop over the slots, from a state in which [S], [P] and [A] are
    gone already. *)
Lemma free_slots_released s0 S P A d v a xs n :
  arrays s0 !! a = Some xs ->
  a ∉ A ->
  (n <= length xs)%nat ->
  let ls := omap id (take n xs) in
  NoDup (S ++ ls) ->
  Forall (fun l => is_Some (stores s0 !! l)) ls ->
  NoDup (P ++ (ls ≫= attached_at s0)) ->
  Forall (fun p => is_Some (pictures s0 !! p)) (ls ≫= attached_at s0) ->
  for_range 0 n (fun i => f ← array_get (Some a) i; free_frame_store f)
    (released s0 S P A d v)
  = Ok tt (released s0 (S ++ ls) (P ++ (ls ≫= attached_at s0)) A d v).
Proof.
  intros Ha HaA Hn ls HS Hlive HP Hplive.
  set (s := released s0 S P A d v).
  assert (Forall (fun l => stores s !! l = stores s0 !! l) ls) as Hsame.
  { apply Forall_forall. intros l Hl. apply released_lookup_store.
    eapply NoDup_app_fresh; eassumption. }
  pose proof (attached_at_other s0 s ls Hsame) as Hatt.
  rewrite (free_slots_ok n 0 s a xs).
  - rewrite drop_0. fold ls. rewrite Hatt. subst s.
    unfold released, set_stores, set_pictures. cbn.
    rewrite !remove_keys_app. reflexivity.
  - subst s. rewrite released_lookup_array by assumption. exact Ha.
  - lia.
  - rewrite drop_0. apply NoDup_app in HS. tauto.
  - rewrite drop_0. fold ls. rewrite Forall_forall in Hsame, Hlive |- *.
    intros l Hl. rewrite Hsame by assumption. auto.
  - rewrite drop_0. fold ls. rewrite Hatt. apply NoDup_app in HP. tauto.
  - rewrite drop_0. fold ls. rewrite Hatt.
    rewrite Forall_forall in Hplive |- *. intros p Hp.
    subst s. rewrite released_lookup_picture; [auto |].
    eapply NoDup_app_fresh; eassumption.
Qed.

Lemma free_frame_store_released s0 S P A d v p :
  let ls := omap id [p] in
  NoDup (S ++ ls) ->
  Forall (fun l => is_Some (stores s0 !! l)) ls ->
  NoDup (P ++ (ls ≫= attached_at s0)) ->
  Forall (fun p => is_Some (pictures s0 !! p)) (ls ≫= attached_at s0) ->
  free_frame_store p (released s0 S P A d v)
  = Ok tt (released s0 (S ++ ls) (P ++ (ls ≫= attached_at s0)) A d v).
Proof.
  intros ls HS Hlive HP Hplive. subst ls.
  destruct p as [l |]; cbn [omap list_omap id] in *.
  - rewrite bind_singleton in *.
    apply Forall_singleton in Hlive as [f Hf].
    assert (l ∉ S) by (eapply NoDup_app_fresh; [eassumption | left]).
    assert (attached_at s0 l = attached f) as Hat
      by (unfold attached_at; rewrite Hf; reflexivity).
    rewrite Hat in *.
    rewrite (free_frame_store_live _ l f).
    + unfold released, set_stores, set_pictures. cbn.
      rewrite !remove_keys_app. reflexivity.
    + rewrite released_lookup_store by assumption. exact Hf.
    + apply NoDup_app in HP. tauto.
    + rewrite Forall_forall in Hplive |- *. intros p Hp.
      rewrite released_lookup_picture; [auto |].
      eapply NoDup_app_fresh; eassumption.
  - cbn. rewrite !app_nil_r. reflexivity.
Qed.

Lemma free_array_released s0 S P A d v a :
  NoDup (A ++ [a]) ->
  is_Some (arrays s0 !! a) ->
  free_array a (released s0 S P A d v)
  = Ok tt (released s0 S P (A ++ [a]) d v).
Proof.
  intros HA [xs Hxs]. unfold free_array.
  rewrite released_lookup_array
    by (eapply NoDup_app_fresh; [eassumption | left]).
  rewrite Hxs. unfold released, set_arrays. cbn.
  rewrite remove_keys_app. reflexivity.
Qed.

Lemma free_storable_picture_released s0 S P A d v p :
  let ps := omap id [p] in
  NoDup (P ++ ps) ->
  Forall (fun p => is_Some (pictures s0 !! p)) ps ->
  free_storable_picture p (released s0 S P A d v)
  = Ok tt (released s0 S (P ++ ps) A d v).
Proof.
  intros ps HP Hlive. subst ps.
  destruct p as [p |]; cbn [omap list_omap id] in *.
  - apply Forall_singleton in Hlive as [x Hx].
    rewrite (free_storable_picture_live _ p x).
    + unfold released, set_pictures. cbn.
      rewrite remove_keys_app. reflexivity.
    + rewrite released_lookup_picture
        by (eapply NoDup_app_fresh; [eassumption | left]).
      exact Hx.
  - cbn. rewrite app_nil_r. reflexivity.
Qed.

Lemma modify_dpb_released s0 S P A d v g :
  modify_dpb g (released s0 S P A d v) = Ok tt (released s0 S P A (g d) v).
Proof. reflexivity. Qed.

Lemma released_start s : s = released s [] [] [] (dpb s) (vid s).
Proof. destruct s. reflexivity. Qed.

(** The block of [free_dpb] that releases the slots of one array, the
    array itself, and clears the pointer to it. *)
Lemma free_array_block s0 S P A d v a n g :
  array_holds s0 a n ->
  let ls := omap id (array_prefix s0 a n) in
  NoDup (A ++ omap id [a]) ->
  Forall (fun l => is_Some (arrays s0 !! l)) (omap id [a]) ->
  NoDup (S ++ ls) ->
  Forall (fun l => is_Some (stores s0 !! l)) ls ->
  NoDup (P ++ (ls ≫= attached_at s0)) ->
  Forall (fun p => is_Some (pictures s0 !! p)) (ls ≫= attached_at s0) ->
  match a with
  | Some a' =>
      for_range 0 n
        (fun i => f ← array_get (Some a') i; free_frame_store f) ;;
      free_array a' ;;
      modify_dpb g
  | None => mret tt
  end (released s0 S P A d v)
  = Ok tt (released s0 (S ++ ls) (P ++ (ls ≫= attached_at s0))
             (A ++ omap id [a])
             (match a with Some _ => g d | None => d end) v).
Proof.
  intros Hholds ls HA HAlive HS Hlive HP Hplive. subst ls.
  destruct a as [a |]; cbn [omap list_omap id array_prefix] in *.
  - unfold array_holds in Hholds.
    destruct (arrays s0 !! a) as [xs |] eqn:Hxs; [| contradiction].
    rename Hholds into Hn.
    erewrite bind_ok; cycle 1.
    { apply (free_slots_released s0 S P A d v a xs n); try assumption.
      eapply NoDup_app_fresh; [eassumption | left]. }
    erewrite bind_ok; cycle 1.
    { apply free_array_released; [assumption |].
      rewrite Hxs. eexists. reflexivity. }
    reflexivity.
  - cbn. rewrite !app_nil_r. reflexivity.
Qed.

Lemma free_array_opt_released s0 S P A d v a :
  NoDup (A ++ omap id [a]) ->
  Forall (fun l => is_Some (arrays s0 !! l)) (omap id [a]) ->
  match a with
  | Some a' => free_array a'
  | None => mret tt
  end (released s0 S P A d v)
  = Ok tt (released s0 S P (A ++ omap id [a]) d v).
Proof.
  intros HA Hlive. destruct a as [a |]; cbn [omap list_omap id] in *.
  - apply free_array_released; [assumption |].
    rewrite Forall_singleton in Hlive. exact Hlive.
  - cbn. rewrite app_nil_r. reflexivity.
Qed.

Lemma deref_vid_set st : deref_vid (Some TheVid) st = Ok (vid st) st.
Proof. reflexivity. Qed.

Lemma free_sentinel_block s0 S P A d v :
  let ps := omap id [no_reference_picture v] in
  NoDup (P ++ ps) ->
  Forall (fun p => is_Some (pictures s0 !! p)) ps ->
  match no_reference_picture v with
  | Some _ =>
      free_storable_picture (no_reference_picture v) ;;
      modify_vid (set_no_reference_picture None)
  | None => mret tt
  end (released s0 S P A d v)
  = Ok tt (released s0 S (P ++ ps) A d (set_no_reference_picture None v)).
Proof.
  intros ps HP Hlive.
  pose proof (free_storable_picture_released s0 S P A d v
                (no_reference_picture v) HP Hlive) as Hfree.
  subst ps. destruct (no_reference_picture v) as [p |] eqn:Hp.
  - erewrite bind_ok by exact Hfree. reflexivity.
  - cbn. rewrite app_nil_r. destruct v. cbn in Hp. subst. reflexivity.
Qed.

Lemma torn_down_steps d :
  set_init_done 0
    (set_last_output_poc INT_MIN
       (if MVC_EXTENSION_ENABLE
        then
          match fs_ilref d with
          | Some _ =>
              set_last_output_view_id (-1)
                (set_fs_ilref None
                   match fs d with
                   | Some _ => set_fs None d
                   | None => d
                   end)
          | None =>
              set_last_output_view_id (-1)
                match fs d with
                | Some _ => set_fs None d
                | None => d
                end
          end
        else match fs d with
             | Some _ => set_fs None d
             | None => d
             end))
  = torn_down d.
Proof.
  unfold torn_down. destruct d as [? [?|] ? ? [?|] ? ? ? ? ? ? ? ? ?];
    destruct MVC_EXTENSION_ENABLE; reflexivity.
Qed.

(** [free_dpb] on a buffer that is ready for it. *)
Lemma free_dpb_ok s :
  teardown_ready s -> free_dpb s = Ok tt (after_free_dpb s).
Proof.
  intros (Hback & Hpool & Hil & HAnd & HAlive & HSnd & HSlive & HPnd & HPlive).
  unfold after_free_dpb.
  unfold pictures_to_free in *. unfold stores_to_free in *.
  unfold arrays_to_free in *. unfold pool_slots in *.
  set (n := Z.to_nat (size (dpb s))) in *.
  set (Sp := omap id (array_prefix s (fs (dpb s)) n)).
  set (il := if MVC_EXTENSION_ENABLE
             then array_prefix s (fs_ilref (dpb s)) 1 else []) in *.
  set (Si := omap id il).
  set (Sl := omap id [last_out_fs (vid s)]).
  set (Ps := omap id [no_reference_picture (vid s)]) in *.
  change [fs (dpb s); fs_ref (dpb s); fs_ltref (dpb s)]
    with ([fs (dpb s)] ++ [fs_ref (dpb s)] ++ [fs_ltref (dpb s)]) in *.
  rewrite !omap_app in *. fold Sp Si Sl in HSnd, HSlive, HPnd, HPlive |- *.
  set (A4 := omap id (if MVC_EXTENSION_ENABLE
                      then [fs_ilref (dpb s)] else [])) in *.
  set (A1 := omap id [fs (dpb s)]) in *.
  set (A2 := omap id [fs_ref (dpb s)]) in *.
  set (A3 := omap id [fs_ltref (dpb s)]) in *.
  rewrite !bind_app in *.
  set (Pp := Sp ≫= attached_at s) in *.
  set (Pi := Si ≫= attached_at s) in *.
  set (Pl := Sl ≫= attached_at s) in *.
  rewrite <- !app_assoc in HAnd, HAlive |- *.
  (* the hypotheses, by phase *)
  apply Forall_app in HAlive as (HA1 & (HA2 & (HA3 & HA4)%Forall_app)%Forall_app).
  apply Forall_app in HSlive as (HSp & (HSi & HSl)%Forall_app).
  apply Forall_app in HPlive as
    ((HPp & (HPi & HPl)%Forall_app)%Forall_app & HPs).
  assert (NoDup (A1 ++ A2)) as HA12
    by (rewrite app_assoc in HAnd; apply NoDup_app in HAnd; tauto).
  assert (NoDup ((A1 ++ A2) ++ A3)) as HA123
    by (rewrite !app_assoc in HAnd; apply NoDup_app in HAnd; tauto).
  assert (NoDup (((A1 ++ A2) ++ A3) ++ A4)) as HA1234
    by (rewrite !app_assoc in HAnd; exact HAnd).
  assert (NoDup (Sp ++ Si)) as HSpi
    by (rewrite app_assoc in HSnd; apply NoDup_app in HSnd; tauto).
  assert (NoDup Sp) as HSp' by (apply NoDup_app in HSpi; tauto).
  assert (NoDup ((Sp ++ Si) ++ Sl)) as HSpil
    by (rewrite <- app_assoc; exact HSnd).
  assert (NoDup (((Pp ++ Pi) ++ Pl) ++ Ps)) as HP4
    by (rewrite <- !app_assoc in HPnd |- *; exact HPnd).
  assert (NoDup ((Pp ++ Pi) ++ Pl)) as HP3
    by (apply NoDup_app in HP4; tauto).
  assert (NoDup (Pp ++ Pi)) as HP2 by (apply NoDup_app in HP3; tauto).
  assert (NoDup Pp) as HP1 by (apply NoDup_app in HP2; tauto).
  (* the run *)
  unfold free_dpb. erewrite bind_ok by reflexivity. cbv zeta.
  pose proof (free_array_block s [] [] [] (dpb s) (vid s) (fs (dpb s)) n
                (set_fs None) Hpool) as Hphase.
  cbv zeta in Hphase. rewrite <- released_start in Hphase.
  erewrite bind_ok; cycle 1.
  { apply Hphase; try assumption.
    apply NoDup_app in HA12 as [? _]. assumption. }
  clear Hphase.
  fold Sp Pp A1. cbn [app].
  erewrite bind_ok; cycle 1.
  { apply free_array_opt_released; assumption. }
  fold A2.
  erewrite bind_ok; cycle 1.
  { apply free_array_opt_released; assumption. }
  fold A3.
  erewrite (bind_ok _ _ _ tt
              (released s (Sp ++ Si) (Pp ++ Pi) (((A1 ++ A2) ++ A3) ++ A4)
                 (match MVC_EXTENSION_ENABLE, fs_ilref (dpb s) with
                  | true, Some _ =>
                      set_last_output_view_id (-1)
                        (set_fs_ilref None _)
                  | true, None => set_last_output_view_id (-1) _
                  | false, _ => _
                  end) (vid s))); cycle 1.
  { subst il Si Pi A4. destruct MVC_EXTENSION_ENABLE eqn:Hmvc.
    - erewrite bind_ok; cycle 1.
      { apply (free_array_block s _ _ _ _ _ (fs_ilref (dpb s)) 1%nat
                 (set_fs_ilref None)); try assumption.
        apply Hil. reflexivity. }
      rewrite modify_dpb_released.
      destruct (fs_ilref (dpb s)); reflexivity.
    - cbn. rewrite !app_nil_r. reflexivity. }
  rewrite modify_dpb_released || erewrite bind_ok by apply modify_dpb_released.
  erewrite bind_ok by apply modify_dpb_released.
  rewrite Hback.
  erewrite bind_ok by apply deref_vid_set.
  cbn [vid released].
  erewrite (bind_ok _ _ _ tt
              (released s ((Sp ++ Si) ++ Sl) ((Pp ++ Pi) ++ Pl) _ _ (vid s)));
    cycle 1.
  { destruct (last_out_fs (vid s)) as [l |] eqn:Hlast.
    - rewrite orb_true_r. cbn [when].
      apply free_frame_store_released; assumption.
    - subst Sl Pl. cbn [omap list_omap id] in *. cbn.
      rewrite !app_nil_r.
      destruct (truthy (conceal_mode (vid s))); reflexivity. }
  erewrite bind_ok by apply deref_vid_set.
  cbn [vid released].
  rewrite torn_down_steps.
  rewrite free_sentinel_block by assumption.
  fold Ps. rewrite <- !app_assoc. reflexivity.
Qed.

End Teardown.

Section Init.
Context `{D : Defines}.

Lemma set_stderr_nil s : set_stderr (stderr s ++ []) s = s.
Proof. destruct s. cbn. rewrite app_nil_r. reflexivity. Qed.

Lemma set_stderr_app s m1 m2 :
  set_stderr (stderr (set_stderr (stderr s ++ m1) s) ++ m2)
    (set_stderr (stderr s ++ m1) s)
  = set_stderr (stderr s ++ m1 ++ m2) s.
Proof. destruct s. cbn. rewrite app_assoc. reflexivity. Qed.

Lemma when_error b text code s :
  when b (error text code) s
  = Ok tt (set_stderr (stderr s ++ if b then [text] else []) s).
Proof.
  destruct b; [reflexivity |]. cbn. rewrite set_stderr_nil. reflexivity.
Qed.

(** [getDpbSize] returns wherever it meets no undefined behaviour, and
    touches nothing but stderr. *)
Lemma getDpbSize_total sps s :
  capacity_defined (vid s) sps = true ->
  exists n msgs,
    getDpbSize sps s = Ok n (set_stderr (stderr s ++ msgs) s).
Proof.
  unfold capacity_defined, getDpbSize. intros Hdef.
  destruct (level_switch sps) as [r | budget].
  { exists r, []. rewrite set_stderr_nil. reflexivity. }
  apply andb_true_iff in Hdef as [Hpic Hviews].
  apply negb_true_iff, Z.eqb_neq in Hpic.
  set (b := match budget with Some n => n | None => 0 end).
  set (m1 := match budget with
             | Some _ => []
             | None => ["undefined level"]
             end).
  erewrite (bind_ok _ _ s b (set_stderr (stderr s ++ m1) s)); cycle 1.
  { subst b m1. destruct budget; [| reflexivity].
    rewrite set_stderr_nil. reflexivity. }
  set (s1 := set_stderr _ s).
  assert (exists n, size_after_views b (pic_size_mb_of sps) s1 = Ok n s1)
    as [n Hn].
  { unfold size_after_views, c_div.
    destruct (Z.eqb_spec (pic_size_mb_of sps) 0); [contradiction |].
    unfold mbind, M_bind, mret, M_ret, get. cbn [vid s1 set_stderr].
    unfold single_view in Hviews.
    destruct (MVC_EXTENSION_ENABLE
              && ((vid_profile_idc (vid s) =? MVC_HIGH)
                  || (vid_profile_idc (vid s) =? STEREO_HIGH))).
    - cbn in Hviews. destruct (active_subset_sps (vid s)) as [sub |];
        [| discriminate].
      apply negb_true_iff in Hviews. rewrite Hviews. eexists. reflexivity.
    - eexists. reflexivity. }
  erewrite bind_ok by exact Hn.
  unfold size_after_vui.
  destruct (truthy _ && truthy _).
  - erewrite bind_ok by apply when_error.
    eexists _, _. unfold mret, M_ret. subst s1.
    rewrite set_stderr_app. reflexivity.
  - exists n, m1. reflexivity.
Qed.

Lemma fresh_stores_length n : forall m, length (fresh_stores n m) = n.
Proof. induction n; intros m; cbn; [reflexivity | rewrite IHn; reflexivity]. Qed.

Lemma fresh_stores_fresh n : forall m l,
  l ∈ fresh_stores n m -> m !! l = None.
Proof.
  induction n as [| n IH]; intros m l; cbn.
  - intros H. apply not_elem_of_nil in H. contradiction.
  - intros [-> | Hin]%elem_of_cons.
    + apply not_elem_of_dom. apply is_fresh.
    + apply IH in Hin. apply lookup_insert_None in Hin. tauto.
Qed.

Lemma fresh_stores_NoDup n : forall m, NoDup (fresh_stores n m).
Proof.
  induction n as [| n IH]; intros m; cbn; constructor; [| apply IH].
  intros Hin. apply fresh_stores_fresh in Hin.
  rewrite lookup_insert_eq in Hin. discriminate.
Qed.

Lemma add_stores_lookup ls : forall m l,
  add_stores ls m !! l = if decide (l ∈ ls) then Some pool_store else m !! l.
Proof.
  unfold add_stores. induction ls as [| l' ls IH]; intros m l; cbn.
  - destruct (decide (l ∈ [])) as [H | _]; [| reflexivity].
    apply not_elem_of_nil in H. contradiction.
  - rewrite IH.
    destruct (decide (l ∈ ls)) as [Hin | Hnin],
             (decide (l ∈ l' :: ls)) as [Hin' | Hnin']; try reflexivity.
    + exfalso. apply Hnin'. right. assumption.
    + apply elem_of_cons in Hin' as [-> | ?]; [| contradiction].
      apply lookup_insert_eq.
    + apply lookup_insert_ne. intros ->. apply Hnin'. left.
Qed.

(** One round of the loop of [init_dpb] builds the frame store
    [pool_store]. *)
Lemma pool_store_steps :
  (if MVC_EXTENSION_ENABLE
   then set_anchor_pic_flag (0, 0)
          (set_inter_view_flag (0, 0)
             (set_view_id MVC_INIT_VIEW_ID
                (set_layer_id MVC_INIT_VIEW_ID zero_FrameStore)))
   else set_layer_id MVC_INIT_VIEW_ID zero_FrameStore)
  = pool_store.
Proof. unfold pool_store. destruct MVC_EXTENSION_ENABLE; reflexivity. Qed.

Lemma alloc_frame_store_ok s :
  alloc_frame_store s
  = Ok (Some (fresh (dom (stores s))))
       (set_stores (<[fresh (dom (stores s)) := zero_FrameStore]> (stores s))
          s).
Proof. reflexivity. Qed.

Lemma update_store_ok s l f g :
  stores s !! l = Some f ->
  update_store (Some l) g s = Ok tt (set_stores (<[l := g f]> (stores s)) s).
Proof.
  intros Hl. unfold update_store, load_store, mbind, M_bind. rewrite Hl.
  reflexivity.
Qed.

Lemma array_set_ok s a xs i v :
  arrays s !! a = Some xs -> (i < length xs)%nat ->
  array_set (Some a) i v s
  = Ok tt (set_arrays (<[a := <[i := v]> xs]> (arrays s)) s).
Proof.
  intros Ha Hi. unfold array_set, load_array, mbind, M_bind. rewrite Ha.
  destruct (decide (i < length xs)%nat); [reflexivity | contradiction].
Qed.

(** Storing a null pointer into an array of null pointers. *)
Lemma array_set_null s a n i :
  arrays s !! a = Some (replicate n None) -> (i < n)%nat ->
  array_set (Some a) i None s = Ok tt s.
Proof.
  intros Ha Hi. rewrite (array_set_ok _ _ _ _ _ Ha)
    by (rewrite length_replicate; exact Hi).
  rewrite insert_replicate, insert_id by exact Ha.
  destruct s. reflexivity.
Qed.

(** A frame store that was just allocated, after the field updates of
    the loop. *)
Lemma init_store_fields s l :
  stores s !! l = Some zero_FrameStore ->
  (update_store (Some l) (set_layer_id MVC_INIT_VIEW_ID) ;;
   if MVC_EXTENSION_ENABLE then init_view_fields (Some l) else mret tt) s
  = Ok tt (set_stores (<[l := pool_store]> (stores s)) s).
Proof.
  intros Hl. rewrite <- pool_store_steps.
  erewrite bind_ok by (apply update_store_ok; exact Hl).
  destruct MVC_EXTENSION_ENABLE.
  - unfold init_view_fields.
    erewrite bind_ok
      by (apply update_store_ok; cbn; apply lookup_insert_eq).
    erewrite bind_ok
      by (apply update_store_ok; cbn; apply lookup_insert_eq).
    erewrite update_store_ok by (cbn; apply lookup_insert_eq).
    destruct s. cbn. rewrite !insert_insert_eq. reflexivity.
  - reflexivity.
Qed.

(** The loop of [init_dpb] over the slots [k], ..., [k + m - 1]. *)
Lemma init_pool_loop a a_ref a_ltref N m : forall k s pre,
  a <> a_ref -> a <> a_ltref ->
  arrays s !! a = Some (pre ++ replicate m None) ->
  length pre = k ->
  arrays s !! a_ref = Some (replicate N None) ->
  arrays s !! a_ltref = Some (replicate N None) ->
  (k + m <= N)%nat ->
  for_range k m
    (fun i =>
       f ← alloc_frame_store;
       array_set (Some a) i f ;;
       array_set (Some a_ref) i None ;;
       array_set (Some a_ltref) i None ;;
       update_store f (set_layer_id MVC_INIT_VIEW_ID) ;;
       if MVC_EXTENSION_ENABLE then init_view_fields f else mret tt) s
  = Ok tt
      (set_stores (add_stores (fresh_stores m (stores s)) (stores s))
         (set_arrays
            (<[a := pre ++ (Some <$> fresh_stores m (stores s))]> (arrays s))
            s)).
Proof.
  induction m as [| m IH]; intros k s pre Href Hltref Ha Hpre Haref Haltref HN.
  - cbn. rewrite insert_id by exact Ha. destruct s. reflexivity.
  - cbn [for_range fresh_stores].
    set (l := fresh (dom (stores s))).
    erewrite bind_ok; cycle 1.
    { erewrite bind_ok by apply alloc_frame_store_ok. fold l.
      erewrite bind_ok; cycle 1.
      { apply (array_set_ok _ a (pre ++ replicate (S m) None));
          [exact Ha |].
        rewrite length_app, length_replicate. lia. }
      erewrite bind_ok; cycle 1.
      { apply (array_set_null _ a_ref N); [| lia].
        cbn. rewrite lookup_insert_ne by exact Href. exact Haref. }
      erewrite bind_ok; cycle 1.
      { apply (array_set_null _ a_ltref N); [| lia].
        cbn. rewrite lookup_insert_ne by exact Hltref. exact Haltref. }
      apply init_store_fields. cbn. apply lookup_insert_eq. }
    cbn [set_stores set_arrays stores arrays vid dpb pictures stderr].
    rewrite insert_insert_eq.
    replace (<[k := Some l]> (pre ++ replicate (S m) None))
      with ((pre ++ [Some l]) ++ replicate m None); cycle 1.
    { rewrite <- Hpre, insert_app_r_alt, Nat.sub_diag by lia.
      cbn. rewrite <- app_assoc. reflexivity. }
    rewrite (IH (S k) _ (pre ++ [Some l])); try assumption.
    + cbn [set_stores set_arrays stores arrays vid dpb pictures stderr].
      rewrite insert_insert_eq, <- app_assoc. reflexivity.
    + cbn. apply lookup_insert_eq.
    + rewrite length_app. cbn. lia.
    + cbn. rewrite lookup_insert_ne by exact Href. exact Haref.
    + cbn. rewrite lookup_insert_ne by exact Hltref. exact Haltref.
    + lia.
Qed.

Lemma modify_dpb_ok g s : modify_dpb g s = Ok tt (set_dpb (g (dpb s)) s).
Proof. reflexivity. Qed.

Lemma modify_vid_ok g s : modify_vid g s = Ok tt (set_vid (g (vid s)) s).
Proof. reflexivity. Qed.

Lemma get_ok s : get s = Ok s s.
Proof. reflexivity. Qed.

Lemma calloc_array_ok n s :
  calloc_array n s
  = Ok (Some (fresh (dom (arrays s))))
       (set_arrays
          (<[fresh (dom (arrays s)) := replicate (Z.to_nat n) None]>
             (arrays s)) s).
Proof. reflexivity. Qed.

Lemma fresh_array_None (m : gmap positive (list (option positive))) :
  m !! fresh (dom m) = None.
Proof. apply not_elem_of_dom. apply is_fresh. Qed.

Lemma fresh_store_None (m : gmap positive FrameStore) :
  m !! fresh (dom m) = None.
Proof. apply not_elem_of_dom. apply is_fresh. Qed.

(** The block of [init_dpb] that fills [fs_ilref[0]]: it leaves the other
    arrays and the frame stores there are as they were. *)
Lemma ilref_slot_block type ail st :
  (MVC_EXTENSION_ENABLE = true ->
   exists a, ail = Some a /\ arrays st !! a = Some [None]) ->
  exists st',
    (if MVC_EXTENSION_ENABLE then
       if type =? 2 then
         f ← alloc_frame_store;
         array_set ail 0 f ;;
         init_view_fields f
       else array_set ail 0 None
     else mret tt) st = Ok tt st'
    /\ vid st' = vid st /\ dpb st' = dpb st
    /\ pictures st' = pictures st /\ stderr st' = stderr st
    /\ (forall a, Some a <> ail -> arrays st' !! a = arrays st !! a)
    /\ (forall l x, stores st !! l = Some x -> stores st' !! l = Some x).
Proof.
  intros Hail. destruct MVC_EXTENSION_ENABLE.
  - destruct (Hail eq_refl) as (a & -> & Ha).
    destruct (type =? 2).
    + set (l := fresh (dom (stores st))).
      assert (stores st !! l = None) as Hl
        by (apply not_elem_of_dom, is_fresh).
      eexists. split.
      { erewrite bind_ok by apply alloc_frame_store_ok. fold l.
        erewrite bind_ok
          by (apply (array_set_ok _ a [None]); [exact Ha | cbn; lia]).
        unfold init_view_fields.
        erewrite bind_ok
          by (apply update_store_ok; cbn; apply lookup_insert_eq).
        erewrite bind_ok
          by (apply update_store_ok; cbn; apply lookup_insert_eq).
        apply update_store_ok. cbn. apply lookup_insert_eq. }
      cbn. repeat split; try reflexivity.
      * intros a' Ha'. apply lookup_insert_ne. congruence.
      * intros l' x Hl'. rewrite !lookup_insert_ne; [exact Hl' | ..];
          intros <-; congruence.
    + exists st. split.
      { apply (array_set_null _ a 1); [exact Ha | lia]. }
      repeat split; auto.
  - exists st. repeat split; auto.
Qed.

(** The block of [init_dpb] that allocates the sentinel picture where
    there is none and points it to itself. *)
Lemma sentinel_block st sps :
  active_sps (vid st) = Some sps ->
  exists st',
    match no_reference_picture (vid st) with
    | None =>
        p ← alloc_storable_picture FRAME (width (vid st)) (height (vid st))
              (width_cr (vid st)) (height_cr (vid st)) 1;
        modify_vid (set_no_reference_picture p) ;;
        update_picture p (fun x => set_sp_top_field p x) ;;
        update_picture p (fun x => set_sp_bottom_field p x) ;;
        update_picture p (fun x => set_sp_frame p x)
    | Some _ => mret tt
    end st = Ok tt st'
    /\ dpb st' = dpb st /\ stores st' = stores st
    /\ arrays st' = arrays st /\ stderr st' = stderr st
    /\ match no_reference_picture (vid st) with
       | Some p => vid st' = vid st /\ pictures st' = pictures st
       | None =>
           exists p pic,
             vid st' = set_no_reference_picture (Some p) (vid st)
             /\ pictures st !! p = None
             /\ pictures st' = <[p := pic]> (pictures st)
             /\ structure pic = FRAME
             /\ sp_frame pic = Some p
             /\ sp_top_field pic = Some p
             /\ sp_bottom_field pic = Some p
       end.
Proof.
  intros Hsps. destruct (no_reference_picture (vid st)) as [p |] eqn:Hnrp.
  - exists st. repeat split; reflexivity.
  - set (p := fresh (dom (pictures st))).
    assert (pictures st !! p = None) as Hp
      by (apply not_elem_of_dom, is_fresh).
    eexists. split.
    { erewrite bind_ok; cycle 1.
      { unfold alloc_storable_picture. rewrite Hsps. fold p. reflexivity. }
      erewrite bind_ok by apply modify_vid_ok.
      unfold update_picture, load_picture, write_picture, modify, mbind,
        M_bind. cbn. rewrite !lookup_insert_eq. cbn.
      rewrite !lookup_insert_eq. cbn. rewrite !lookup_insert_eq.
      rewrite !insert_insert_eq. reflexivity. }
    cbn. rewrite ?insert_insert_eq. repeat split; try reflexivity.
    eexists p, _. repeat split; try reflexivity. exact Hp.
Qed.

Lemma ilref_array_block st :
  exists ail st',
    (if MVC_EXTENSION_ENABLE then
       a_ilref ← calloc_array 1;
       modify_dpb (set_fs_ilref a_ilref) ;;
       mret a_ilref
     else mret None) st = Ok ail st'
    /\ vid st' = vid st /\ pictures st' = pictures st
    /\ stores st' = stores st /\ stderr st' = stderr st
    /\ dpb st' = (if MVC_EXTENSION_ENABLE
                  then set_fs_ilref ail (dpb st) else dpb st)
    /\ (forall a, is_Some (arrays st !! a) -> Some a <> ail)
    /\ (forall a, Some a <> ail -> arrays st' !! a = arrays st !! a)
    /\ (MVC_EXTENSION_ENABLE = true ->
        exists a, ail = Some a /\ arrays st' !! a = Some [None]).
Proof.
  destruct MVC_EXTENSION_ENABLE.
  - set (a := fresh (dom (arrays st))).
    assert (arrays st !! a = None) as Ha by apply fresh_array_None.
    eexists (Some a), _. split; [reflexivity |].
    cbn. fold a. repeat split; try reflexivity.
    + intros a' [x Hx] [= ->]. congruence.
    + intros a' Ha'. apply lookup_insert_ne. congruence.
    + intros _. exists a. split; [reflexivity | apply lookup_insert_eq].
  - exists None, st. repeat split; try reflexivity; try discriminate.
Qed.

Ltac simpl_state :=
  cbn [vid dpb pictures stores arrays stderr
       set_vid set_dpb set_pictures set_stores set_arrays set_stderr
       p_Vid fs fs_ref fs_ltref fs_ilref size used_size
       ref_frames_in_buffer ltref_frames_in_buffer last_output_poc
       last_output_view_id init_done dpb_num_ref_frames last_picture
       set_p_Vid set_fs set_fs_ref set_fs_ltref set_fs_ilref set_size
       set_used_size set_ref_frames_in_buffer set_ltref_frames_in_buffer
       set_last_output_poc set_last_output_view_id set_init_done
       set_dpb_num_ref_frames set_last_picture] in *.

(** The last statements of [init_dpb]. *)
Lemma finish_block st :
  exists st',
    (modify_dpb (set_last_output_poc INT_MIN) ;;
     (if MVC_EXTENSION_ENABLE
      then modify_dpb (set_last_output_view_id (-1)) else mret tt) ;;
     modify_vid (set_last_has_mmco_5 0) ;;
     modify_dpb (set_init_done 1) ;;
     s ← get;
     if truthy (conceal_mode (vid s))
        && negb (bool_decide (is_Some (last_out_fs (vid s))))
     then f ← alloc_frame_store; modify_vid (set_last_out_fs f)
     else mret tt) st = Ok tt st'
    /\ dpb st'
       = set_init_done 1
           ((if MVC_EXTENSION_ENABLE
             then set_last_output_view_id (-1) else id)
              (set_last_output_poc INT_MIN (dpb st)))
    /\ arrays st' = arrays st /\ pictures st' = pictures st
    /\ stderr st' = stderr st
    /\ no_reference_picture (vid st') = no_reference_picture (vid st)
    /\ (forall l x, stores st !! l = Some x -> stores st' !! l = Some x).
Proof.
  erewrite bind_ok by apply modify_dpb_ok.
  erewrite (bind_ok _ _ _ tt
              (set_dpb ((if MVC_EXTENSION_ENABLE
                         then set_last_output_view_id (-1) else id)
                          (set_last_output_poc INT_MIN (dpb st))) st));
    cycle 1.
  { destruct MVC_EXTENSION_ENABLE; [reflexivity |].
    destruct st. reflexivity. }
  erewrite bind_ok by apply modify_vid_ok.
  erewrite bind_ok by apply modify_dpb_ok.
  erewrite bind_ok by apply get_ok.
  simpl_state.
  destruct (truthy _ && negb _).
  - eexists. split; [reflexivity |]. cbn. repeat split; try reflexivity.
    intros l x Hl. rewrite lookup_insert_ne; [exact Hl |].
    intros <-. rewrite fresh_store_None in Hl. discriminate.
  - eexists. split; [reflexivity |]. cbn. repeat split; auto.
Qed.

(** [init_dpb] on a buffer whose [init_done] flag is clear. *)
Lemma init_dpb_fresh type s sps :
  truthy (init_done (dpb s)) = false ->
  active_sps (vid s) = Some sps ->
  capacity_defined (vid s) sps = true ->
  exists n msgs s',
    getDpbSize sps (set_dpb (set_p_Vid (Some TheVid) (dpb s)) s)
    = Ok n (set_stderr (stderr s ++ msgs)
              (set_dpb (set_p_Vid (Some TheVid) (dpb s)) s))
    /\ init_dpb type s = Ok tt s'
    /\ let plus := if type =? 2 then snd (dpb_plus (p_Inp (vid s)))
                   else fst (dpb_plus (p_Inp (vid s))) in
       let N := to_uint (to_int (n + plus)) in
       let ls := fresh_stores (Z.to_nat N) (stores s) in
       (p_Vid (dpb s') = Some TheVid
        /\ size (dpb s') = N
        /\ dpb_num_ref_frames (dpb s') = to_int (num_ref_frames sps)
        /\ used_size (dpb s') = 0
        /\ ref_frames_in_buffer (dpb s') = 0
        /\ ltref_frames_in_buffer (dpb s') = 0
        /\ last_output_poc (dpb s') = INT_MIN
        /\ init_done (dpb s') = 1
        /\ last_picture (dpb s') = None)
       /\ stderr s'
          = stderr s ++ msgs
            ++ (if if MVC_EXTENSION_ENABLE
                   then to_uint (sps_max_dec_frame_buffering sps)
                        <? num_ref_frames sps
                   else N <? num_ref_frames sps
                then [undersized_message] else [])
       /\ (exists a,
             fs (dpb s') = Some a /\ arrays s !! a = None
             /\ arrays s' !! a = Some (Some <$> ls))
       /\ (forall l, l ∈ ls -> stores s' !! l = Some pool_store)
       /\ (forall l x, stores s !! l = Some x -> stores s' !! l = Some x)
       /\ match no_reference_picture (vid s) with
          | Some p =>
              no_reference_picture (vid s') = Some p
              /\ pictures s' = pictures s
          | None =>
              exists p pic,
                no_reference_picture (vid s') = Some p
                /\ pictures s !! p = None
                /\ pictures s' = <[p := pic]> (pictures s)
                /\ structure pic = FRAME
                /\ sp_frame pic = Some p
                /\ sp_top_field pic = Some p
                /\ sp_bottom_field pic = Some p
          end.
Proof.
  intros Hinit Hsps Hdef.
  set (s1 := set_dpb _ s).
  destruct (getDpbSize_total sps s1 Hdef) as (n & msgs & Hn).
  exists n, msgs. unfold init_dpb.
  erewrite bind_ok by apply get_ok. cbv zeta.
  erewrite bind_ok by apply modify_dpb_ok.
  rewrite Hinit. cbn [when].
  erewrite bind_ok by reflexivity.
  rewrite Hsps. erewrite bind_ok by reflexivity.
  fold s1. erewrite bind_ok by exact Hn.
  erewrite bind_ok by apply get_ok. cbv zeta.
  erewrite bind_ok by apply modify_dpb_ok.
  erewrite bind_ok by apply modify_dpb_ok.
  erewrite bind_ok by apply get_ok.
  erewrite bind_ok by apply when_error.
  do 4 erewrite bind_ok by apply modify_dpb_ok.
  subst s1. simpl_state.
  set (plus := if type =? 2 then _ else _).
  set (N := to_uint (to_int (n + plus))).
  erewrite bind_ok by apply calloc_array_ok.
  erewrite bind_ok by apply modify_dpb_ok.
  erewrite bind_ok by apply calloc_array_ok.
  erewrite bind_ok by apply modify_dpb_ok.
  erewrite bind_ok by apply calloc_array_ok.
  erewrite bind_ok by apply modify_dpb_ok.
  simpl_state.
  set (a1 := fresh (dom (arrays s))).
  set (arr1 := <[a1 := replicate (Z.to_nat N) None]> (arrays s)).
  set (a2 := fresh (dom arr1)).
  set (arr2 := <[a2 := replicate (Z.to_nat N) None]> arr1).
  set (a3 := fresh (dom arr2)).
  set (arr3 := <[a3 := replicate (Z.to_nat N) None]> arr2).
  assert (arrays s !! a1 = None) as Ha1 by apply fresh_array_None.
  assert (a1 <> a2) as H12.
  { intros Heq. pose proof (fresh_array_None arr1) as Hf. fold a2 in Hf.
    rewrite <- Heq in Hf. subst arr1. rewrite lookup_insert_eq in Hf.
    discriminate. }
  assert (a1 <> a3 /\ a2 <> a3) as [H13 H23].
  { pose proof (fresh_array_None arr2) as Hf. fold a3 in Hf. subst arr2 arr1.
    apply lookup_insert_None in Hf as [Hf ?].
    apply lookup_insert_None in Hf as [_ ?]. auto. }
  match goal with
  | |- context [_ ?st = Ok tt _] => set (st0 := st)
  end.
  assert (arrays st0 = arr3) as Harr0 by reflexivity.
  assert (stores st0 = stores s) as Hst0 by reflexivity.
  assert (vid st0 = vid s) as Hvid0 by reflexivity.
  assert (pictures st0 = pictures s) as Hpic0 by reflexivity.
  assert (stderr st0
          = (stderr s ++ msgs)
            ++ (if if MVC_EXTENSION_ENABLE
                   then to_uint (sps_max_dec_frame_buffering sps)
                        <? num_ref_frames sps
                   else N <? num_ref_frames sps
                then [undersized_message] else [])) as Herr0 by reflexivity.
  assert (dpb st0
          = set_fs_ltref (Some a3)
              (set_fs_ref (Some a2)
                 (set_fs (Some a1)
                    (set_ltref_frames_in_buffer 0
                       (set_ref_frames_in_buffer 0
                          (set_last_picture None
                             (set_used_size 0
                                (set_dpb_num_ref_frames
                                   (to_int (num_ref_frames sps))
                                   (set_size N
                                      (set_p_Vid (Some TheVid)
                                         (dpb s)))))))))))
    as Hdpb0 by reflexivity.
  clearbody st0.
  (* the array of the inter-layer reference *)
  destruct (ilref_array_block st0)
    as (ail & st4 & Hrun4 & Hvid4 & Hpic4 & Hst4 & Herr4 & Hdpb4 & Hnew4 & Harr4
        & Hil4).
  erewrite bind_ok by exact Hrun4.
  assert (forall a, a ∈ [a1; a2; a3] -> arrays st4 !! a
                                        = Some (replicate (Z.to_nat N) None))
    as Hnull.
  { intros a Ha. rewrite Harr4.
    - rewrite Harr0. subst arr3 arr2 arr1.
      repeat (apply elem_of_cons in Ha as [-> | Ha]);
        [ rewrite !lookup_insert_ne by congruence
        | rewrite lookup_insert_ne by congruence
        | | apply not_elem_of_nil in Ha; contradiction ];
        apply lookup_insert_eq.
    - apply Hnew4. rewrite Harr0. subst arr3 arr2 arr1.
      repeat (apply elem_of_cons in Ha as [-> | Ha]);
        [ rewrite !lookup_insert_ne by congruence
        | rewrite lookup_insert_ne by congruence
        | | apply not_elem_of_nil in Ha; contradiction ];
        rewrite lookup_insert_eq; eexists; reflexivity. }
  (* the pool *)
  erewrite bind_ok; cycle 1.
  { apply (init_pool_loop a1 a2 a3 (Z.to_nat N) (Z.to_nat N) 0 st4 []);
      try assumption; try reflexivity.
    - cbn. apply Hnull. set_solver.
    - apply Hnull. set_solver.
    - apply Hnull. set_solver. }
  rewrite Hst4, Hst0. cbn [app].
  set (ls := fresh_stores (Z.to_nat N) (stores s)).
  set (st5 := set_stores _ _).
  assert (Some a1 <> ail) as Ha1ail.
  { apply Hnew4. rewrite Harr0. subst arr3 arr2.
    rewrite !lookup_insert_ne by congruence. subst arr1.
    rewrite lookup_insert_eq. eexists. reflexivity. }
  (* the slot of the inter-layer reference *)
  destruct (ilref_slot_block type ail st5)
    as (st6 & Hrun6 & Hvid6 & Hdpb6 & Hpic6 & Herr6 & Harr6 & Hst6).
  { intros Hmvc. destruct (Hil4 Hmvc) as (a & -> & Ha).
    exists a. split; [reflexivity |]. subst st5. cbn.
    rewrite lookup_insert_ne by congruence. exact Ha. }
  erewrite bind_ok by exact Hrun6.
  erewrite bind_ok by apply get_ok.
  (* the sentinel *)
  destruct (sentinel_block st6 sps)
    as (st7 & Hrun7 & Hdpb7 & Hst7 & Harr7 & Herr7 & Hnrp7).
  { rewrite Hvid6. subst st5. cbn. rewrite Hvid4, Hvid0. exact Hsps. }
  erewrite bind_ok by exact Hrun7.
  destruct (finish_block st7)
    as (s' & Hrun & Hdpb & Harr & Hpic & Herr & Hnrp & Hst).
  exists s'. split; [exact Hn |]. split; [exact Hrun |].
  assert (vid st6 = vid s) as Hvid
    by (rewrite Hvid6; subst st5; cbn; congruence).
  assert (pictures st6 = pictures s) as Hpics
    by (rewrite Hpic6; subst st5; cbn; congruence).
  assert (dpb st7
          = if MVC_EXTENSION_ENABLE then set_fs_ilref ail (dpb st0)
            else dpb st0) as Hdpb'
    by (rewrite Hdpb7, Hdpb6; subst st5; cbn; exact Hdpb4).
  split; [| split; [| split; [| split; [| split]]]].
  - rewrite Hdpb, Hdpb', Hdpb0.
    destruct MVC_EXTENSION_ENABLE; repeat split; reflexivity.
  - rewrite Herr, Herr7, Herr6. subst st5. cbn [stderr set_stores set_arrays].
    rewrite Herr4, Herr0, <- app_assoc. reflexivity.
  - exists a1. split; [| split; [exact Ha1 |]].
    + rewrite Hdpb, Hdpb', Hdpb0. destruct MVC_EXTENSION_ENABLE; reflexivity.
    + rewrite Harr, Harr7, Harr6 by exact Ha1ail. subst st5. cbn.
      apply lookup_insert_eq.
  - intros l Hl. apply Hst. rewrite Hst7. apply Hst6. subst st5. cbn.
    rewrite add_stores_lookup.
    destruct (decide (l ∈ ls)); [reflexivity | contradiction].
  - intros l x Hl. apply Hst. rewrite Hst7. apply Hst6. subst st5. cbn.
    rewrite add_stores_lookup.
    destruct (decide (l ∈ ls)) as [Hin | _]; [| exact Hl].
    apply fresh_stores_fresh in Hin. congruence.
  - rewrite Hvid, Hpics in Hnrp7.
    destruct (no_reference_picture (vid s)) as [p |] eqn:Hsent.
    + destruct Hnrp7 as [Hv Hp].
      split; [rewrite Hnrp, Hv; exact Hsent | rewrite Hpic; exact Hp].
    + destruct Hnrp7 as (p & pic & Hv & Hfresh & Hp & Hstruct & Hf & Ht & Hb).
      exists p, pic. rewrite Hnrp, Hv, Hpic.
      repeat split; assumption || reflexivity.
Qed.

End Init.

Section StorageClaims.
Context `{D : Defines}.

(** C10: [free_frame_store] and [free_storable_picture] test their
    argument first, and a null pointer leaves the state as it is. *)
Theorem free_null_noop s :
  free_frame_store None s = Ok tt s /\ free_storable_picture None s = Ok tt s.
Proof. split; reflexivity. Qed.

(** C9: [alloc_storable_picture] halves the luma and chroma heights for a
    field before it requests the planes and the motion arrays, requests
    three further motion arrays when [separate_colour_plane_flag] is set,
    and points [frame], [top_field] and [bottom_field] of the new picture
    to [p_Vid->no_reference_picture]. *)
Theorem alloc_storable_picture_field_sizes s sps st sx sy sx_cr sy_cr out :
  active_sps (vid s) = Some sps ->
  MAX_PLANE = 3%nat ->
  let h := if decide (st = FRAME) then sy else Z.quot sy 2 in
  let h_cr := if decide (st = FRAME) then sy_cr else Z.quot sy_cr 2 in
  let mv := Mem2Dmp (Z.shiftr h BLOCK_SHIFT) (Z.shiftr sx BLOCK_SHIFT) in
  let mbf :=
    {| mb_field :=
         Some (Bytes (to_int (Z.shiftr h BLOCK_SHIFT
                              * Z.shiftr sx BLOCK_SHIFT))) |} in
  exists l pic,
    alloc_storable_picture st sx sy sx_cr sy_cr out s
    = Ok (Some l) (set_pictures (<[l := pic]> (pictures s)) s) /\
    pictures s !! l = None /\
    structure pic = st /\
    size_x pic = sx /\ size_y pic = h /\
    size_x_cr pic = sx_cr /\ size_y_cr pic = h_cr /\
    imgY pic = Some (Mem2Dpel_pad h sx (iLumaPadY (vid s)) (iLumaPadX (vid s))) /\
    imgUV pic
    = (if chroma_format_idc sps =? YUV400 then None
       else Some (Mem3Dpel_pad 2 h_cr sx_cr
                    (iChromaPadY (vid s)) (iChromaPadX (vid s)))) /\
    mv_info pic = Some mv /\
    motion pic = mbf /\
    JVmv_info pic
    = (if separate_colour_plane_flag (vid s) =? 0 then [None; None; None]
       else [Some mv; Some mv; Some mv]) /\
    JVmotion pic
    = (if separate_colour_plane_flag (vid s) =? 0
       then replicate 3 {| mb_field := None |}
       else [mbf; mbf; mbf]) /\
    sp_frame pic = no_reference_picture (vid s) /\
    sp_top_field pic = no_reference_picture (vid s) /\
    sp_bottom_field pic = no_reference_picture (vid s).
Proof.
  intros Hsps Hplane h h_cr mv mbf.
  unfold alloc_storable_picture. rewrite Hsps, Hplane.
  eexists _, _. split; [reflexivity |].
  split.
  { apply not_elem_of_dom. apply is_fresh. }
  cbn [structure size_x size_y size_x_cr size_y_cr imgY imgUV mv_info motion
       JVmv_info JVmotion sp_frame sp_top_field sp_bottom_field].
  unfold truthy. destruct (separate_colour_plane_flag (vid s) =? 0);
    repeat split; reflexivity.
Qed.

End StorageClaims.

Section LifecycleClaims.
Context `{D : Defines}.

Lemma set_p_Vid_same d : p_Vid d = Some TheVid -> set_p_Vid (Some TheVid) d = d.
Proof. destruct d. cbn. intros ->. reflexivity. Qed.

Lemma set_dpb_same s : set_dpb (dpb s) s = s.
Proof. destruct s. reflexivity. Qed.

(** [init_dpb] on a buffer whose [init_done] flag is set: [free_dpb] runs
    first, and the rest is [init_dpb] on the state it leaves. *)
Lemma init_dpb_reinit type s :
  truthy (init_done (dpb s)) = true ->
  let s1 := set_dpb (set_p_Vid (Some TheVid) (dpb s)) s in
  teardown_ready s1 ->
  init_dpb type s = init_dpb type (after_free_dpb s1).
Proof.
  intros Hinit s1 Hready.
  unfold init_dpb at 1.
  erewrite bind_ok by apply get_ok. cbv zeta.
  erewrite bind_ok by apply modify_dpb_ok. fold s1.
  rewrite Hinit. cbn [when].
  erewrite bind_ok by (apply free_dpb_ok; exact Hready).
  unfold init_dpb.
  erewrite (bind_ok get) by apply get_ok. cbv zeta.
  erewrite (bind_ok (modify_dpb _)) by apply modify_dpb_ok.
  rewrite set_p_Vid_same, set_dpb_same by reflexivity.
  reflexivity.
Qed.

(** Every call of [init_dpb] is a call on a buffer whose [init_done] flag
    is clear: the buffer itself, or what [free_dpb] leaves of it. *)
Lemma init_dpb_from_torn_down type s sps :
  active_sps (vid s) = Some sps ->
  capacity_defined (vid s) sps = true ->
  let s1 := set_dpb (set_p_Vid (Some TheVid) (dpb s)) s in
  (truthy (init_done (dpb s)) = true -> teardown_ready s1) ->
  let s0 := if truthy (init_done (dpb s)) then after_free_dpb s1 else s in
  truthy (init_done (dpb s0)) = false
  /\ active_sps (vid s0) = Some sps
  /\ capacity_defined (vid s0) sps = true
  /\ stderr s0 = stderr s
  /\ init_dpb type s = init_dpb type s0.
Proof.
  intros Hsps Hdef s1 Hready s0. subst s0.
  destruct (truthy (init_done (dpb s))) eqn:Hinit.
  - repeat split; try reflexivity; try assumption.
    apply init_dpb_reinit; auto.
  - repeat split; assumption || reflexivity.
Qed.

(** C7: [init_dpb] on a buffer whose [init_done] flag is set runs
    [free_dpb] first and then initialises the state [free_dpb] leaves.  In
    every call the pool gets exactly [size] slots, each with a frame store
    of its own that was not there before; the sentinel picture is allocated
    only where there is none, with [frame], [top_field] and [bottom_field]
    pointing to itself; [used_size], [ref_frames_in_buffer] and
    [ltref_frames_in_buffer] are 0 and [last_output_poc] is [INT_MIN]. *)
Theorem init_dpb_tears_down_then_allocates type s sps :
  active_sps (vid s) = Some sps ->
  capacity_defined (vid s) sps = true ->
  let s1 := set_dpb (set_p_Vid (Some TheVid) (dpb s)) s in
  (truthy (init_done (dpb s)) = true -> teardown_ready s1) ->
  let s0 := if truthy (init_done (dpb s)) then after_free_dpb s1 else s in
  (truthy (init_done (dpb s)) = true -> free_dpb s1 = Ok tt s0)
  /\ exists s',
       init_dpb type s = Ok tt s'
       /\ init_dpb type s0 = Ok tt s'
       /\ (exists a ls,
             fs (dpb s') = Some a
             /\ arrays s' !! a = Some (Some <$> ls)
             /\ length ls = Z.to_nat (size (dpb s'))
             /\ NoDup ls
             /\ forall l, l ∈ ls ->
                  stores s0 !! l = None /\ stores s' !! l = Some pool_store)
       /\ match no_reference_picture (vid s0) with
          | Some p =>
              no_reference_picture (vid s') = Some p
              /\ pictures s' = pictures s0
          | None =>
              exists p pic,
                no_reference_picture (vid s') = Some p
                /\ pictures s0 !! p = None
                /\ pictures s' = <[p := pic]> (pictures s0)
                /\ sp_frame pic = Some p
                /\ sp_top_field pic = Some p
                /\ sp_bottom_field pic = Some p
          end
       /\ used_size (dpb s') = 0
       /\ ref_frames_in_buffer (dpb s') = 0
       /\ ltref_frames_in_buffer (dpb s') = 0
       /\ last_output_poc (dpb s') = INT_MIN.
Proof.
  intros Hsps Hdef s1 Hready s0.
  destruct (init_dpb_from_torn_down type s sps Hsps Hdef Hready)
    as (Hinit0 & Hsps0 & Hdef0 & _ & Hre). fold s1 s0 in Hinit0, Hsps0, Hdef0, Hre.
  split.
  { intros Hinit. subst s0. rewrite Hinit. apply free_dpb_ok. auto. }
  destruct (init_dpb_fresh type s0 sps Hinit0 Hsps0 Hdef0)
    as (n & msgs & s' & _ & Hrun & Hpost).
  cbv zeta in Hpost.
  destruct Hpost as ((_ & Hsize & _ & Hused & Href & Hltref & Hpoc & _ & _)
                     & _ & (a & Hfs & _ & Harr) & Hpool & _ & Hsent).
  exists s'. split; [rewrite Hre; exact Hrun |]. split; [exact Hrun |].
  split; [| split; [| auto]].
  - eexists a, _. split; [exact Hfs |]. split; [exact Harr |].
    rewrite fresh_stores_length, Hsize. split; [reflexivity |].
    split; [apply fresh_stores_NoDup |].
    intros l Hl. split; [eapply fresh_stores_fresh; exact Hl | auto].
  - destruct (no_reference_picture (vid s0)) as [p |]; [exact Hsent |].
    destruct Hsent as (p & pic & ? & ? & ? & _ & ? & ? & ?).
    exists p, pic. auto 10.
Qed.

(** C8, amended: on a buffer whose back pointer [p_Vid] is set and which
    owns what it points to, [free_dpb] releases every frame store of the
    pool with the pictures attached to it, releases the sentinel picture and
    clears the pointer to it, and clears [init_done]; with null pool
    pointers it returns as well and releases no array and no frame store
    other than [last_out_fs]. *)
Theorem free_dpb_releases_pool s :
  teardown_ready s ->
  exists s',
    free_dpb s = Ok tt s'
    /\ (forall l, Some l ∈ pool_slots s ->
          stores s' !! l = None
          /\ forall p, p ∈ attached_at s l -> pictures s' !! p = None)
    /\ no_reference_picture (vid s') = None
    /\ (forall p, no_reference_picture (vid s) = Some p ->
          pictures s' !! p = None)
    /\ init_done (dpb s') = 0
    /\ (fs (dpb s) = None -> fs_ref (dpb s) = None ->
        fs_ltref (dpb s) = None -> fs_ilref (dpb s) = None ->
        arrays s' = arrays s
        /\ stores s' = remove_keys (omap id [last_out_fs (vid s)]) (stores s)).
Proof.
  intros Hready. exists (after_free_dpb s).
  split; [apply free_dpb_ok; exact Hready |].
  assert (forall l, Some l ∈ pool_slots s -> l ∈ stores_to_free s) as Hin.
  { intros l Hl. unfold stores_to_free. rewrite omap_app.
    apply elem_of_app. left. apply list_elem_of_omap.
    exists (Some l). auto. }
  split; [| split; [reflexivity | split; [| split; [reflexivity |]]]].
  - intros l Hl. apply Hin in Hl. split.
    + cbn. rewrite remove_keys_lookup.
      destruct (decide (l ∈ stores_to_free s)); [reflexivity | contradiction].
    + intros p Hp. cbn. rewrite remove_keys_lookup.
      destruct (decide (p ∈ pictures_to_free s)) as [_ | Hn];
        [reflexivity |].
      exfalso. apply Hn. unfold pictures_to_free. apply elem_of_app. left.
      apply list_elem_of_bind. exists l. auto.
  - intros p Hp. cbn. rewrite remove_keys_lookup.
    destruct (decide (p ∈ pictures_to_free s)) as [_ | Hn]; [reflexivity |].
    exfalso. apply Hn. unfold pictures_to_free. apply elem_of_app. right.
    rewrite Hp. cbn. left.
  - intros Hfs Href Hltref Hilref. cbn.
    unfold arrays_to_free, stores_to_free, pool_slots.
    rewrite Hfs, Href, Hltref, Hilref. cbn.
    destruct MVC_EXTENSION_ENABLE; split; reflexivity.
Qed.

Lemma level_switch_31 sps :
  level_idc sps = 31 -> level_switch sps = inr (Some 18000).
Proof. unfold level_switch. intros ->. reflexivity. Qed.

(** C5: at level 3.1, for a frame-only picture of 8192 macroblocks without
    VUI override, [getDpbSize] returns 18000 / 8192 = 2, and [init_dpb]
    with the default of [DPBPLUS0], which is 1, sets the size of the base
    layer buffer to 3. *)
Theorem init_dpb_level31_8192 type s sps :
  active_sps (vid s) = Some sps ->
  level_idc sps = 31 ->
  truthy (frame_mbs_only_flag sps) = true ->
  picture_size sps = 8192 ->
  vui_override sps = false ->
  single_view (vid s) = true ->
  truthy (init_done (dpb s)) = false ->
  type <> 2 ->
  dpb_plus (p_Inp (vid s)) = default_dpb_plus ->
  getDpbSize sps s = Ok (18000 / 8192) s
  /\ 18000 / 8192 = 2
  /\ exists s', init_dpb type s = Ok tt s' /\ size (dpb s') = 2 + 1.
Proof.
  intros Hsps Hlevel Hframe Hsize Hvui Hsv Hinit Htype Hplus.
  pose proof (level_switch_31 sps Hlevel) as Hsw.
  assert (forall st, vid st = vid s -> getDpbSize sps st = Ok 2 st) as Hget.
  { intros st Hst.
    rewrite (getDpbSize_recognised _ 18000) by assumption.
    unfold mbind, M_bind.
    rewrite single_view_capacity
      by (rewrite ?Hst, ?Hsize; unfold INT_MAX; auto; lia).
    rewrite size_after_vui_none by assumption.
    rewrite Hsize. reflexivity. }
  split; [apply Hget; reflexivity |]. split; [reflexivity |].
  assert (capacity_defined (vid s) sps = true) as Hdef.
  { unfold capacity_defined. rewrite Hsw, Hsv.
    rewrite pic_size_mb_of_exact by (rewrite Hsize; unfold INT_MAX; lia).
    rewrite Hsize. reflexivity. }
  destruct (init_dpb_fresh type s sps Hinit Hsps Hdef)
    as (n & msgs & s' & Hn & Hrun & Hpost).
  rewrite Hget in Hn by reflexivity. injection Hn as <- _.
  cbv zeta in Hpost. destruct Hpost as ((_ & Hsz & _) & _).
  exists s'. split; [exact Hrun |]. rewrite Hsz, Hplus.
  destruct (Z.eqb_spec type 2); [contradiction |]. reflexivity.
Qed.

(** C4, amended: [init_dpb] compares the size it has just computed, or
    in a build with MVC_EXTENSION_ENABLE the field [max_dec_frame_buffering]
    of the active parameter set, with [num_ref_frames]; where it is smaller,
    the error message is the last line on stderr, and otherwise stderr
    holds what [getDpbSize] printed and nothing more. *)
Theorem init_dpb_reports_undersized type s sps :
  active_sps (vid s) = Some sps ->
  capacity_defined (vid s) sps = true ->
  let s1 := set_dpb (set_p_Vid (Some TheVid) (dpb s)) s in
  (truthy (init_done (dpb s)) = true -> teardown_ready s1) ->
  let s0 := if truthy (init_done (dpb s)) then after_free_dpb s1 else s in
  let s2 := set_dpb (set_p_Vid (Some TheVid) (dpb s0)) s0 in
  exists n msgs s',
    getDpbSize sps s2 = Ok n (set_stderr (stderr s ++ msgs) s2)
    /\ init_dpb type s = Ok tt s'
    /\ size (dpb s')
       = to_uint
           (to_int
              (n + (if type =? 2 then snd (dpb_plus (p_Inp (vid s)))
                    else fst (dpb_plus (p_Inp (vid s))))))
    /\ let tested :=
         if MVC_EXTENSION_ENABLE
         then to_uint (sps_max_dec_frame_buffering sps)
         else size (dpb s') in
       stderr s'
       = stderr s ++ msgs
         ++ (if tested <? num_ref_frames sps
             then [undersized_message] else []).
Proof.
  intros Hsps Hdef s1 Hready s0 s2.
  destruct (init_dpb_from_torn_down type s sps Hsps Hdef Hready)
    as (Hinit0 & Hsps0 & Hdef0 & Herr0 & Hre).
  fold s1 s0 in Hinit0, Hsps0, Hdef0, Herr0, Hre.
  destruct (init_dpb_fresh type s0 sps Hinit0 Hsps0 Hdef0)
    as (n & msgs & s' & Hn & Hrun & Hpost).
  cbv zeta in Hpost.
  destruct Hpost as ((_ & Hsize & _) & Herr & _).
  assert (dpb_plus (p_Inp (vid s0)) = dpb_plus (p_Inp (vid s))) as Hplus
    by (subst s0; destruct (truthy (init_done (dpb s))); reflexivity).
  rewrite Herr0, Hplus in *.
  exists n, msgs, s'. split; [exact Hn |]. split; [rewrite Hre; exact Hrun |].
  split; [exact Hsize |]. cbv zeta. rewrite Herr, Hsize.
  destruct MVC_EXTENSION_ENABLE; reflexivity.
Qed.

End LifecycleClaims.

(** ** Concrete runs *)

(** Level 3.1 with 8192 macroblocks and [num_ref_frames] = 4: the size
    is 3, smaller than the number of reference frames; [init_dpb] prints
    the message, allocates the pool and returns with [init_done] set. *)
Lemma init_dpb_undersized_returns (mvc : bool) :
  let D := jm_defines mvc in
  let sps := sps_of 31 128 64 4 in
  exists s',
    init_dpb 0 (state_of sps) = Ok tt s'
    /\ size (dpb s') = 3
    /\ dpb_num_ref_frames (dpb s') = 4
    /\ stderr s' = [undersized_message]
    /\ length (pool_slots s') = 3%nat
    /\ init_done (dpb s') = 1.
Proof.
  destruct mvc; eexists; (split; [vm_compute; reflexivity |]);
    vm_compute; repeat split; reflexivity.
Qed.

(** C4 as stated fails on a build with MVC_EXTENSION_ENABLE where the
    configured adjustment [DPBPLUS0] is -1: at level 3.1 with 8192
    macroblocks the parameter set carries [max_dec_frame_buffering] = 2,
    the size is 2 - 1 = 1 and [num_ref_frames] is 2; [init_dpb] tests
    2 < 2, prints nothing and returns with a pool of one slot. *)
Lemma init_dpb_undersized_silent :
  let D := jm_defines true in
  let sps := with_sps_max_dec_frame_buffering 2 (sps_of 31 128 64 2) in
  exists s',
    init_dpb 0 (configured (-1, 0) (state_of sps)) = Ok tt s'
    /\ size (dpb s') = 1
    /\ num_ref_frames sps = 2
    /\ stderr s' = []
    /\ init_done (dpb s') = 1.
Proof.
  eexists; (split; [vm_compute; reflexivity |]);
    vm_compute; repeat split; reflexivity.
Qed.

(** The sibling of [error] that still ends the run. *)
Lemma error_KeyGen_exits text code s :
  error_KeyGen text code s = Exit code (set_stderr (stderr s ++ [text]) s)
  /\ error text code s = Ok tt (set_stderr (stderr s ++ [text]) s).
Proof. split; reflexivity. Qed.

(** C8 as stated fails on a buffer as [calloc] leaves it: all pool
    pointers are null, and so is the back pointer [p_Vid], which [free_dpb]
    dereferences to reach [conceal_mode]. *)
Lemma free_dpb_zeroed_buffer_faults :
  let s := state_of (sps_of 31 128 64 1) in
  fs (dpb s) = None /\ fs_ref (dpb s) = None /\ fs_ltref (dpb s) = None
  /\ fs_ilref (dpb s) = None /\ init_done (dpb s) = 0
  /\ free_dpb (D := jm_defines true) s = Fault NullDeref
  /\ free_dpb (D := jm_defines false) s = Fault NullDeref.
Proof. repeat split; vm_compute; reflexivity. Qed.

(** ** Witnesses *)

Lemma getDpbSize_range_and_antitone_witness :
  let D := jm_defines true in
  let sps := sps_of 31 128 64 1 in
  single_view (vid (state_of sps)) = true
  /\ valid_level_size sps = true
  /\ vui_override sps = false
  /\ exists n, getDpbSize sps (state_of sps) = Ok n (state_of sps)
               /\ 1 <= n <= 16.
Proof.
  intros D sps.
  split; [reflexivity |]. split; [reflexivity |]. split; [reflexivity |].
  destruct (getDpbSize_range_and_antitone (D := D) sps (state_of sps)
              eq_refl eq_refl eq_refl) as (n & Hrun & Hrange & _).
  exists n. split; assumption.
Defined.

Lemma getDpbSize_budget_quotient_clip_witness :
  let D := jm_defines true in
  let sps := sps_of 31 128 64 1 in
  level_idc sps ∈ recognised_levels
  /\ level_idc sps <> 0
  /\ single_view (vid (state_of sps)) = true
  /\ 0 < picture_size sps <= INT_MAX
  /\ exists budget,
       level_switch sps = inr (Some budget)
       /\ getDpbSize sps (state_of sps)
          = Ok (Z.min (budget / pic_size_mb_of sps) 16) (state_of sps).
Proof.
  intros D sps.
  assert (level_idc sps ∈ recognised_levels) as Hrec
    by (apply list_elem_of_In; vm_compute; tauto).
  assert (level_idc sps <> 0) as Hnz by (vm_compute; discriminate).
  assert (0 < picture_size sps <= INT_MAX) as Hsize by (vm_compute; split; congruence).
  split; [exact Hrec |]. split; [exact Hnz |]. split; [reflexivity |].
  split; [exact Hsize |].
  destruct (getDpbSize_budget_quotient_clip (D := D) sps (state_of sps)
              Hrec Hnz eq_refl Hsize) as (b & Hsw & _ & _ & _ & Hrun).
  exists b. split; [exact Hsw | apply Hrun; reflexivity].
Defined.

Lemma alloc_storable_picture_field_sizes_witness :
  let D := jm_defines true in
  let s := state_of (sps_of 40 120 68 4) in
  active_sps (vid s) = Some (sps_of 40 120 68 4)
  /\ MAX_PLANE = 3%nat
  /\ exists l pic,
       alloc_storable_picture TOP_FIELD 1920 1088 960 544 0 s
       = Ok (Some l) (set_pictures (<[l := pic]> (pictures s)) s)
       /\ size_y pic = 544 /\ size_y_cr pic = 272
       /\ imgY pic = Some (Mem2Dpel_pad 544 1920 32 32)
       /\ mv_info pic = Some (Mem2Dmp 136 480)
       /\ sp_frame pic = None.
Proof.
  intros D s. split; [reflexivity |]. split; [reflexivity |].
  destruct (alloc_storable_picture_field_sizes (D := D) s
              (sps_of 40 120 68 4) TOP_FIELD 1920 1088 960 544 0
              eq_refl eq_refl)
    as (l & pic & Hrun & _ & _ & _ & Hy & _ & Hcr & HY & _ & Hmv & _ & _ & _
        & Hf & _).
  exists l, pic. repeat split; assumption.
Defined.

Lemma free_dpb_releases_pool_witness :
  let D := jm_defines true in
  let s := buffer_in_use true in
  teardown_ready s
  /\ exists s', free_dpb s = Ok tt s' /\ init_done (dpb s') = 0
                /\ no_reference_picture (vid s') = None.
Proof.
  intros D s.
  assert (teardown_ready s) as Hready
    by (apply (bool_decide_unpack _); vm_compute; exact I).
  split; [exact Hready |].
  destruct (free_dpb_releases_pool (D := D) s Hready)
    as (s' & Hrun & _ & Hnrp & _ & Hdone & _).
  exists s'. repeat split; assumption.
Defined.

Lemma init_dpb_tears_down_then_allocates_witness :
  let D := jm_defines true in
  let s := buffer_in_use true in
  let sps := with_sps_max_dec_frame_buffering 4 (sps_of 40 120 68 1) in
  active_sps (vid s) = Some sps
  /\ capacity_defined (vid s) sps = true
  /\ truthy (init_done (dpb s)) = true
  /\ teardown_ready (set_dpb (set_p_Vid (Some TheVid) (dpb s)) s)
  /\ exists s', init_dpb 0 s = Ok tt s' /\ used_size (dpb s') = 0
                /\ last_output_poc (dpb s') = INT_MIN.
Proof.
  intros D s sps.
  assert (teardown_ready (set_dpb (set_p_Vid (Some TheVid) (dpb s)) s))
    as Hready by (apply (bool_decide_unpack _); vm_compute; exact I).
  split; [reflexivity |]. split; [reflexivity |]. split; [reflexivity |].
  split; [exact Hready |].
  destruct (init_dpb_tears_down_then_allocates (D := D) 0 s sps
              eq_refl eq_refl (fun _ => Hready))
    as (_ & s' & Hrun & _ & _ & _ & Hused & _ & _ & Hpoc).
  exists s'. repeat split; assumption.
Defined.

Lemma init_dpb_level31_8192_witness :
  let D := jm_defines true in
  let sps := sps_of 31 128 64 1 in
  let s := state_of sps in
  active_sps (vid s) = Some sps
  /\ level_idc sps = 31
  /\ truthy (frame_mbs_only_flag sps) = true
  /\ picture_size sps = 8192
  /\ vui_override sps = false
  /\ single_view (vid s) = true
  /\ truthy (init_done (dpb s)) = false
  /\ 0 <> 2
  /\ dpb_plus (p_Inp (vid s)) = default_dpb_plus
  /\ getDpbSize sps s = Ok (18000 / 8192) s
  /\ exists s', init_dpb 0 s = Ok tt s' /\ size (dpb s') = 2 + 1.
Proof.
  intros D sps s.
  assert (0 <> 2) as Htype by lia.
  repeat (split; [first [reflexivity | exact Htype] |]).
  destruct (init_dpb_level31_8192 (D := D) 0 s sps eq_refl eq_refl eq_refl
              eq_refl eq_refl eq_refl eq_refl Htype eq_refl)
    as (Hget & _ & Hinit).
  exact Hinit.
Defined.

Lemma init_dpb_reports_undersized_witness :
  let D := jm_defines false in
  let sps := sps_of 31 128 64 4 in
  let s := state_of sps in
  active_sps (vid s) = Some sps
  /\ capacity_defined (vid s) sps = true
  /\ truthy (init_done (dpb s)) = false
  /\ exists s',
       init_dpb 0 s = Ok tt s'
       /\ size (dpb s') = 3
       /\ stderr s' = [undersized_message].
Proof.
  intros D sps s. split; [reflexivity |]. split; [reflexivity |].
  split; [reflexivity |].
  destruct (init_dpb_reports_undersized (D := D) 0 s sps eq_refl eq_refl
              (fun H : false = true => False_ind _ (Bool.diff_false_true H)))
    as (n & msgs & s' & Hn & Hrun & Hsize & Herr).
  vm_compute in Hn. injection Hn as <- <-.
  exists s'. split; [exact Hrun |]. split; [exact Hsize |].
  cbv zeta in Herr. rewrite Hsize in Herr. rewrite Herr. reflexivity.
Defined.
